(** * Dyslexia-Prediction: the risk scorer and the CSV upload path of [App]

    The application is a single React component.  Its logic is the pure
    function [analyzeData] (six measurements in, a risk result out) and the
    event handler [handleCSVUpload] (uploaded text in, component state out).
    Both are embedded here as executable Rocq functions.

    JavaScript numbers are IEEE 754 binary64 values; they are modelled with
    the Standard Library's [spec_float] at precision 53 and maximal exponent
    1024, so every sum, product and quotient below is rounded exactly as the
    engine rounds it.  JavaScript strings are modelled by [string], one
    [ascii] per code unit (code units 0 to 255). *)

From Stdlib Require Import ZArith List Bool String Ascii Lia.
From Stdlib Require Import Floats.SpecFloat.
From Stdlib Require Import DecimalString Permutation.
Import ListNotations.
Local Open Scope Z_scope.

(* ================================================================== *)
(** ** The JavaScript built-ins the component relies on *)
(* ================================================================== *)

Module JS.

(** *** Numbers *)

Definition prec : Z := 53.
Definition emax : Z := 1024.

Definition number : Set := spec_float.

Definition NaN : number := S754_nan.

(** The value of an integer literal. *)
Definition of_Z (z : Z) : number := binary_normalize prec emax z 0 false.

(** The value of a decimal numeral [m * 10^e] with [0 <= m]: the binary64
    number nearest to it (ties to even), with the sign [neg]. *)
Definition of_decimal (neg : bool) (m : Z) (e : Z) : number :=
  match m with
  | Zpos p =>
      match e with
      | Zneg k => SFdiv prec emax (S754_finite neg p 0)
                                  (S754_finite false (10 ^ k)%positive 0)
      | _ => binary_round prec emax neg (p * Z.to_pos (10 ^ e))%positive 0
      end
  | _ => S754_zero neg
  end.

Definition add : number -> number -> number := SFadd prec emax.
Definition sub : number -> number -> number := SFsub prec emax.
Definition mul : number -> number -> number := SFmul prec emax.
Definition div : number -> number -> number := SFdiv prec emax.
Definition abs : number -> number := SFabs.

(** [a < b], [a > b], [a >= b]: false as soon as one side is NaN. *)
Definition lt (a b : number) : bool := SFltb a b.
Definition gt (a b : number) : bool := SFltb b a.
Definition ge (a b : number) : bool := SFleb b a.
Definition le (a b : number) : bool := SFleb a b.

Definition isNaN (x : number) : bool :=
  match x with S754_nan => true | _ => false end.

(** ToBoolean on a number: [+0], [-0] and [NaN] are falsy. *)
Definition toBoolean (x : number) : bool :=
  match x with
  | S754_nan | S754_zero _ => false
  | _ => true
  end.

(** [a || b] on numbers. *)
Definition or (a b : number) : number := if toBoolean a then a else b.

(** *** Strings *)

Definition LF : ascii := "010"%char.

(** WhiteSpace and LineTerminator code units: TAB, LF, VT, FF, CR, SP and
    NBSP (the others lie above 255). *)
Definition isWhiteSpace (c : ascii) : bool :=
  let n := N_of_ascii c in
  (((9 <=? n) && (n <=? 13)) || (n =? 32) || (n =? 160))%N.

Fixpoint trimStart (s : string) : string :=
  match s with
  | String c s' => if isWhiteSpace c then trimStart s' else s
  | EmptyString => EmptyString
  end.

Fixpoint trimEnd (s : string) : string :=
  match s with
  | String c s' =>
      match trimEnd s' with
      | EmptyString => if isWhiteSpace c then EmptyString else String c EmptyString
      | t => String c t
      end
  | EmptyString => EmptyString
  end.

(** [s.trim()] *)
Definition trim (s : string) : string := trimEnd (trimStart s).

Definition isUpperAZ (c : ascii) : bool :=
  let n := N_of_ascii c in ((65 <=? n) && (n <=? 90))%N.

(** Lower-casing of one code unit: A-Z, and the capital letters of the
    Latin-1 block (U+00C0 to U+00DE without the sign U+00D7). *)
Definition toLowerCaseUnit (c : ascii) : ascii :=
  let n := N_of_ascii c in
  if (isUpperAZ c || ((192 <=? n) && (n <=? 222) && negb (n =? 215)))%N
  then ascii_of_N (n + 32) else c.

(** [s.toLowerCase()] *)
Fixpoint toLowerCase (s : string) : string :=
  match s with
  | String c s' => String (toLowerCaseUnit c) (toLowerCase s')
  | EmptyString => EmptyString
  end.

(** [s.split(sep)] for a separator of one code unit: the pieces between the
    separators, always at least one piece. *)
Fixpoint split (sep : ascii) (s : string) : list string :=
  match s with
  | String c s' =>
      if Ascii.eqb c sep then EmptyString :: split sep s'
      else match split sep s' with
           | piece :: pieces => String c piece :: pieces
           | [] => [String c EmptyString]
           end
  | EmptyString => [EmptyString]
  end.

(** [s.replace(/([A-Z])/g, ' $1')]: a space in front of every capital A-Z. *)
Fixpoint spaceBeforeCapitals (s : string) : string :=
  match s with
  | String c s' =>
      if isUpperAZ c then String " " (String c (spaceBeforeCapitals s'))
      else String c (spaceBeforeCapitals s')
  | EmptyString => EmptyString
  end.

(** *** Arrays of strings *)

Fixpoint indexOf_from (x : string) (a : list string) (i : Z) : Z :=
  match a with
  | y :: a' => if String.eqb y x then i else indexOf_from x a' (i + 1)
  | [] => -1
  end.

(** [a.indexOf(x)]: the first position holding [x], or [-1]. *)
Definition indexOf (x : string) (a : list string) : Z := indexOf_from x a 0.

(** [a[i]]: [None] is [undefined] (negative or past the end). *)
Definition item (a : list string) (i : Z) : option string :=
  if i <? 0 then None else nth_error a (Z.to_nat i).

(** *** Conversion of a string to a number *)

(** The value of [c] as a digit of radix [r] (2, 8, 10 or 16). *)
Definition digitValue (r : Z) (c : ascii) : option Z :=
  let n := Z.of_N (N_of_ascii c) in
  let v := if (48 <=? n) && (n <=? 57) then n - 48
           else if (97 <=? n) && (n <=? 102) then n - 87
           else if (65 <=? n) && (n <=? 70) then n - 55
           else r in
  if v <? r then Some v else None.

(** The longest prefix of [s] made of radix-[r] digits: its value on top of
    [acc], the number of digits on top of [n], and what follows. *)
Fixpoint readDigits (r : Z) (s : string) (acc n : Z) : Z * Z * string :=
  match s with
  | String c s' =>
      match digitValue r c with
      | Some d => readDigits r s' (acc * r + d) (n + 1)
      | None => (acc, n, s)
      end
  | EmptyString => (acc, n, s)
  end.

(** What follows the mantissa up to the end of the literal: nothing, or an
    ExponentPart ([e] or [E], an optional sign, at least one digit). *)
Definition readExponent (s : string) : option Z :=
  match s with
  | EmptyString => Some 0
  | String c s' =>
      if Ascii.eqb c "e" || Ascii.eqb c "E" then
        let '(neg, ds) :=
          match s' with
          | String "+" t => (false, t)
          | String "-" t => (true, t)
          | _ => (false, s')
          end in
        match readDigits 10 ds 0 0 with
        | (v, n, EmptyString) => if 0 <? n then Some (if neg then - v else v) else None
        | _ => None
        end
      else None
  end.

(** StrUnsignedDecimalLiteral with the sign already read: [Infinity],
    [digits], [digits.], [digits.digits] or [.digits], then an optional
    exponent. *)
Definition StrDecimalLiteral (neg : bool) (s : string) : number :=
  if String.eqb s "Infinity" then S754_infinity neg
  else
    let '(i, ni, s1) := readDigits 10 s 0 0 in
    let '(m, nf, s2) :=
      match s1 with
      | String "." t => readDigits 10 t i 0
      | _ => (i, 0, s1)
      end in
    if ni + nf =? 0 then NaN
    else match readExponent s2 with
         | Some e => of_decimal neg m (e - nf)
         | None => NaN
         end.

(** NonDecimalIntegerLiteral after its prefix: at least one digit of the
    radix, up to the end. *)
Definition NonDecimalIntegerLiteral (r : Z) (s : string) : number :=
  match readDigits r s 0 0 with
  | (v, n, EmptyString) => if 0 <? n then of_Z v else NaN
  | _ => NaN
  end.

(** StringToNumber: white space is trimmed, the empty string is [+0], and
    whatever is not a StrNumericLiteral is NaN. *)
Definition StringToNumber (s : string) : number :=
  match trim s with
  | EmptyString => S754_zero false
  | String "0" (String "x" t) | String "0" (String "X" t) => NonDecimalIntegerLiteral 16 t
  | String "0" (String "o" t) | String "0" (String "O" t) => NonDecimalIntegerLiteral 8 t
  | String "0" (String "b" t) | String "0" (String "B" t) => NonDecimalIntegerLiteral 2 t
  | String "+" t => StrDecimalLiteral false t
  | String "-" t => StrDecimalLiteral true t
  | t => StrDecimalLiteral false t
  end.

(** [Number(v)] for [v] a string or [undefined]. *)
Definition Number (v : option string) : number :=
  match v with
  | Some s => StringToNumber s
  | None => NaN
  end.

End JS.

Abbreviation number := JS.number.

(** Conversion unfolds the arithmetic last: the definitions below are
    compared as expressions over it, and evaluated only on closed numbers. *)
Strategy 100 [JS.of_Z JS.of_decimal JS.add JS.sub JS.mul JS.div JS.abs
              JS.lt JS.gt JS.ge JS.le JS.isNaN JS.toBoolean JS.or].

Local Open Scope string_scope.

(* ================================================================== *)
(** ** The component's data *)
(* ================================================================== *)

Record FormDataType : Set := {
  readingSpeed : number;
  fixationDuration : number;
  saccadeLength : number;
  phonemeErrors : number;
  spellingErrors : number;
  comprehensionScore : number
}.

Definition initialFormData : FormDataType := {|
  readingSpeed := JS.of_Z 60;
  fixationDuration := JS.of_Z 350;
  saccadeLength := JS.of_Z 30;
  phonemeErrors := JS.of_Z 10;
  spellingErrors := JS.of_Z 7;
  comprehensionScore := JS.of_Z 70
|}.

(** The [details] object of a result. *)
Record Details : Set := {
  readingSpeedRisk : string;
  fixationRisk : string;
  saccadeRisk : string;
  phonemeRisk : string;
  spellingRisk : string;
  comprehensionRisk : string
}.

(** The object [analyzeData] returns. *)
Record Result : Set := {
  prediction : number;
  riskScore : number;
  confidence : number;
  details : Details
}.

(* ================================================================== *)
(** ** [analyzeData] *)
(* ================================================================== *)

Record Threshold : Set := { low : number; high : number }.

Module Thresholds.
Record t : Set := {
  readingSpeed : Threshold;
  fixationDuration : Threshold;
  saccadeLength : Threshold;
  phonemeErrors : Threshold;
  spellingErrors : Threshold;
  comprehensionScore : Threshold
}.
End Thresholds.

Definition weights : list number :=
  [ JS.of_decimal false 25 (-2); JS.of_decimal false 15 (-2);
    JS.of_decimal false 15 (-2); JS.of_decimal false 20 (-2);
    JS.of_decimal false 15 (-2); JS.of_decimal false 10 (-2) ].

Definition thresholds : Thresholds.t := {|
  Thresholds.readingSpeed := {| low := JS.of_Z 50; high := JS.of_Z 80 |};
  Thresholds.fixationDuration := {| low := JS.of_Z 300; high := JS.of_Z 400 |};
  Thresholds.saccadeLength := {| low := JS.of_Z 20; high := JS.of_Z 35 |};
  Thresholds.phonemeErrors := {| low := JS.of_Z 8; high := JS.of_Z 12 |};
  Thresholds.spellingErrors := {| low := JS.of_Z 5; high := JS.of_Z 10 |};
  Thresholds.comprehensionScore := {| low := JS.of_Z 60; high := JS.of_Z 80 |}
|}.

(** [features]: the six measurements in declaration order. *)
Definition features (dataToAnalyze : FormDataType) : list number :=
  [ readingSpeed dataToAnalyze; fixationDuration dataToAnalyze;
    saccadeLength dataToAnalyze; phonemeErrors dataToAnalyze;
    spellingErrors dataToAnalyze; comprehensionScore dataToAnalyze ].

(** An array read [a[i]] used as a number: out of range it is [undefined],
    which compares false and multiplies to NaN, exactly as NaN does. *)
Definition at_index (a : list number) (i : nat) : number := nth i a JS.NaN.

(** The [switch (index)] of the callback: the local [score] starts at 0 and
    one of the six cases may overwrite it. *)
Definition score (index : nat) (value : number) : number :=
  match index with
  | 0%nat =>
      if JS.lt value (low (Thresholds.readingSpeed thresholds)) then JS.of_Z 2
      else if JS.lt value (high (Thresholds.readingSpeed thresholds)) then JS.of_Z 1
      else JS.of_Z 0
  | 1%nat =>
      if JS.gt value (high (Thresholds.fixationDuration thresholds)) then JS.of_Z 2
      else if JS.gt value (low (Thresholds.fixationDuration thresholds)) then JS.of_Z 1
      else JS.of_Z 0
  | 2%nat =>
      if JS.lt value (low (Thresholds.saccadeLength thresholds)) then JS.of_Z 2
      else if JS.lt value (high (Thresholds.saccadeLength thresholds)) then JS.of_Z 1
      else JS.of_Z 0
  | 3%nat =>
      if JS.gt value (high (Thresholds.phonemeErrors thresholds)) then JS.of_Z 2
      else if JS.gt value (low (Thresholds.phonemeErrors thresholds)) then JS.of_Z 1
      else JS.of_Z 0
  | 4%nat =>
      if JS.gt value (high (Thresholds.spellingErrors thresholds)) then JS.of_Z 2
      else if JS.gt value (low (Thresholds.spellingErrors thresholds)) then JS.of_Z 1
      else JS.of_Z 0
  | 5%nat =>
      if JS.lt value (low (Thresholds.comprehensionScore thresholds)) then JS.of_Z 2
      else if JS.lt value (high (Thresholds.comprehensionScore thresholds)) then JS.of_Z 1
      else JS.of_Z 0
  | _ => JS.of_Z 0
  end.

(** [features.forEach((value, index) => { ...; riskScore += score * weight })]:
    the accumulator [riskScore] is threaded through the elements, [index]
    counts from the position of the first one. *)
Fixpoint forEach (fs : list number) (index : nat) (riskScore : number) : number :=
  match fs with
  | [] => riskScore
  | value :: rest =>
      let weight := at_index weights index in
      forEach rest (S index) (JS.add riskScore (JS.mul (score index value) weight))
  end.

Definition analyzeData (dataToAnalyze : FormDataType) : Result :=
  let features := features dataToAnalyze in
  let riskScore := forEach features 0%nat (JS.of_Z 0) in
  let normalizedScore := JS.mul (JS.div riskScore (JS.of_Z 2)) (JS.of_Z 10) in
  {| prediction := if JS.ge normalizedScore (JS.of_Z 5) then JS.of_Z 1 else JS.of_Z 0;
     riskScore := normalizedScore;
     confidence :=
       JS.mul (JS.sub (JS.of_Z 1)
                      (JS.div (JS.abs (JS.sub (JS.of_Z 5) normalizedScore)) (JS.of_Z 5)))
              (JS.of_Z 100);
     details := {|
       readingSpeedRisk :=
         if JS.lt (at_index features 0) (low (Thresholds.readingSpeed thresholds)) then "High"
         else if JS.lt (at_index features 0) (high (Thresholds.readingSpeed thresholds)) then "Medium"
         else "Low";
       fixationRisk :=
         if JS.gt (at_index features 1) (high (Thresholds.fixationDuration thresholds)) then "High"
         else if JS.gt (at_index features 1) (low (Thresholds.fixationDuration thresholds)) then "Medium"
         else "Low";
       saccadeRisk :=
         if JS.lt (at_index features 2) (low (Thresholds.saccadeLength thresholds)) then "High"
         else if JS.lt (at_index features 2) (high (Thresholds.saccadeLength thresholds)) then "Medium"
         else "Low";
       phonemeRisk :=
         if JS.gt (at_index features 3) (high (Thresholds.phonemeErrors thresholds)) then "High"
         else if JS.gt (at_index features 3) (low (Thresholds.phonemeErrors thresholds)) then "Medium"
         else "Low";
       spellingRisk :=
         if JS.gt (at_index features 4) (high (Thresholds.spellingErrors thresholds)) then "High"
         else if JS.gt (at_index features 4) (low (Thresholds.spellingErrors thresholds)) then "Medium"
         else "Low";
       comprehensionRisk :=
         if JS.lt (at_index features 5) (low (Thresholds.comprehensionScore thresholds)) then "High"
         else if JS.lt (at_index features 5) (high (Thresholds.comprehensionScore thresholds)) then "Medium"
         else "Low"
     |}
  |}.


(* ================================================================== *)
(** ** Component state and handlers *)
(* ================================================================== *)

(** The five [useState] cells of [App]. *)
Record AppState : Set := {
  formData : FormDataType;
  result : option Result;
  activeTab : string;
  inputMethod : string;
  csvError : option string
}.

Definition initialState : AppState := {|
  formData := initialFormData;
  result := None;
  activeTab := "input";
  inputMethod := "manual";
  csvError := None
|}.

(** A handler reads and updates the state, and either returns or throws an
    [Error] carrying a message.  Updates made before a throw are kept. *)
Definition Eff (A : Type) : Type := AppState -> (string + A) * AppState.

Definition ret {A : Type} (a : A) : Eff A := fun st => (inr a, st).

Definition throw {A : Type} (message : string) : Eff A := fun st => (inl message, st).

Definition bind {A B : Type} (m : Eff A) (k : A -> Eff B) : Eff B :=
  fun st =>
    match m st with
    | (inr a, st') => k a st'
    | (inl message, st') => (inl message, st')
    end.

(** [try { m } catch (error) { handler(error.message) }] *)
Definition catch {A : Type} (m : Eff A) (handler : string -> Eff A) : Eff A :=
  fun st =>
    match m st with
    | (inl message, st') => handler message st'
    | done => done
    end.

Declare Scope eff_scope.
Delimit Scope eff_scope with eff.
Notation "m ;; k" := (bind m (fun _ => k))
  (at level 61, right associativity) : eff_scope.
Notation "'throw_if' c 'then' message" :=
  (if c then throw message else ret tt)
  (at level 60, c at level 9, message at level 9) : eff_scope.

Definition setFormData (v : FormDataType) : Eff unit :=
  fun st => (inr tt, {| formData := v; result := result st; activeTab := activeTab st;
                        inputMethod := inputMethod st; csvError := csvError st |}).

Definition setResult (v : option Result) : Eff unit :=
  fun st => (inr tt, {| formData := formData st; result := v; activeTab := activeTab st;
                        inputMethod := inputMethod st; csvError := csvError st |}).

Definition setActiveTab (v : string) : Eff unit :=
  fun st => (inr tt, {| formData := formData st; result := result st; activeTab := v;
                        inputMethod := inputMethod st; csvError := csvError st |}).

Definition setCsvError (v : option string) : Eff unit :=
  fun st => (inr tt, {| formData := formData st; result := result st; activeTab := activeTab st;
                        inputMethod := inputMethod st; csvError := v |}).

(** [handleInputChange]: the slider named [name] now shows [value].  The
    sliders carry the six keys of the record (a key outside them would add
    a property the record type does not have, and changes nothing here). *)
Definition handleInputChange (name value : string) : Eff unit :=
  fun st =>
    let prev := formData st in
    let v := JS.Number (Some value) in
    let upd (key : string) (old : number) := if String.eqb name key then v else old in
    setFormData {|
      readingSpeed := upd "readingSpeed" (readingSpeed prev);
      fixationDuration := upd "fixationDuration" (fixationDuration prev);
      saccadeLength := upd "saccadeLength" (saccadeLength prev);
      phonemeErrors := upd "phonemeErrors" (phonemeErrors prev);
      spellingErrors := upd "spellingErrors" (spellingErrors prev);
      comprehensionScore := upd "comprehensionScore" (comprehensionScore prev)
    |} st.

Definition expectedHeaders : list string :=
  [ "reading speed"; "fixation duration"; "saccade length";
    "phoneme errors"; "spelling errors"; "comprehension score" ].

(** [Object.entries(newFormData)] *)
Definition entries (d : FormDataType) : list (string * number) :=
  [ ("readingSpeed", readingSpeed d); ("fixationDuration", fixationDuration d);
    ("saccadeLength", saccadeLength d); ("phonemeErrors", phonemeErrors d);
    ("spellingErrors", spellingErrors d); ("comprehensionScore", comprehensionScore d) ].

(** The [forEach] of the "Validate numbers" pass: the first NaN throws. *)
Fixpoint validateNumbers (es : list (string * number)) : Eff unit :=
  match es with
  | (key, value) :: rest =>
      bind (if JS.isNaN value
            then throw ("Invalid number in " ++ JS.toLowerCase (JS.spaceBeforeCapitals key))
            else ret tt)
           (fun _ => validateNumbers rest)
  | [] => ret tt
  end.

Local Open Scope eff_scope.

(** [handleCSVUpload]: [file] is the text that [file.text()] delivers for
    the selected file, [None] when no file was selected.  [lines[0]] and
    [lines[1]] are read only after the length check, where both exist. *)
Definition handleCSVUpload (file : option string) : Eff unit :=
  setCsvError None ;;
  match file with
  | Some text =>
      catch
        (let lines := JS.split JS.LF (JS.trim text) in
         throw_if (List.length lines <? 2)%nat
           then "CSV file must contain a header row and at least one data row" ;;
         let header := JS.split "," (JS.toLowerCase (nth 0 lines "")) in
         let data := JS.split "," (nth 1 lines "") in
         let isValidFormat :=
           forallb (fun h => existsb (fun csvHeader => String.eqb (JS.trim csvHeader) h) header)
                   expectedHeaders in
         throw_if (negb isValidFormat)
           then "Invalid CSV format. Please ensure the headers match the required format." ;;
         let newFormData := {|
           readingSpeed :=
             JS.or (JS.Number (JS.item data (JS.indexOf "reading speed" header)))
                   (readingSpeed initialFormData);
           fixationDuration :=
             JS.or (JS.Number (JS.item data (JS.indexOf "fixation duration" header)))
                   (fixationDuration initialFormData);
           saccadeLength :=
             JS.or (JS.Number (JS.item data (JS.indexOf "saccade length" header)))
                   (saccadeLength initialFormData);
           phonemeErrors :=
             JS.or (JS.Number (JS.item data (JS.indexOf "phoneme errors" header)))
                   (phonemeErrors initialFormData);
           spellingErrors :=
             JS.or (JS.Number (JS.item data (JS.indexOf "spelling errors" header)))
                   (spellingErrors initialFormData);
           comprehensionScore :=
             JS.or (JS.Number (JS.item data (JS.indexOf "comprehension score" header)))
                   (comprehensionScore initialFormData)
         |} in
         validateNumbers (entries newFormData) ;;
         setFormData newFormData ;;
         let predictionResult := analyzeData newFormData in
         setResult (Some predictionResult) ;;
         setActiveTab "results")
        (fun message => setCsvError (Some message))
  | None => ret tt
  end.

(** [handleSubmit]: analyse the record currently held. *)
Definition handleSubmit : Eff unit :=
  fun st =>
    (let predictionResult := analyzeData (formData st) in
     setResult (Some predictionResult) ;;
     setActiveTab "results") st.

Local Close Scope eff_scope.

(* ================================================================== *)
(** ** The vocabulary of the specification *)
(* ================================================================== *)

(** The six fields of an InputRecord, in declaration order. *)
Inductive Field : Set :=
  | ReadingSpeed | FixationDuration | SaccadeLength
  | PhonemeErrors | SpellingErrors | ComprehensionScore.

Definition fields : list Field :=
  [ ReadingSpeed; FixationDuration; SaccadeLength;
    PhonemeErrors; SpellingErrors; ComprehensionScore ].

(** The position of a field in [features]. *)
Definition position (f : Field) : nat :=
  match f with
  | ReadingSpeed => 0 | FixationDuration => 1 | SaccadeLength => 2
  | PhonemeErrors => 3 | SpellingErrors => 4 | ComprehensionScore => 5
  end.

Definition value (f : Field) (d : FormDataType) : number :=
  match f with
  | ReadingSpeed => readingSpeed d
  | FixationDuration => fixationDuration d
  | SaccadeLength => saccadeLength d
  | PhonemeErrors => phonemeErrors d
  | SpellingErrors => spellingErrors d
  | ComprehensionScore => comprehensionScore d
  end.

(** The label of a field in the header of an upload. *)
Definition label (f : Field) : string :=
  match f with
  | ReadingSpeed => "reading speed"
  | FixationDuration => "fixation duration"
  | SaccadeLength => "saccade length"
  | PhonemeErrors => "phoneme errors"
  | SpellingErrors => "spelling errors"
  | ComprehensionScore => "comprehension score"
  end.

(** The risk level reported for a field in [details]. *)
Definition riskLevel (f : Field) (ds : Details) : string :=
  match f with
  | ReadingSpeed => readingSpeedRisk ds
  | FixationDuration => fixationRisk ds
  | SaccadeLength => saccadeRisk ds
  | PhonemeErrors => phonemeRisk ds
  | SpellingErrors => spellingRisk ds
  | ComprehensionScore => comprehensionRisk ds
  end.

(** The score the callback of [analyzeData] computes for a field. *)
Definition fieldScore (f : Field) (d : FormDataType) : number :=
  score (position f) (value f d).

(** The threshold table of the specification. *)
Inductive Direction : Set := LowValueIsRisk | HighValueIsRisk.

Record TableRow : Set := {
  lowThreshold : Z;
  highThreshold : Z;
  direction : Direction
}.

Definition table (f : Field) : TableRow :=
  match f with
  | ReadingSpeed => {| lowThreshold := 50; highThreshold := 80; direction := LowValueIsRisk |}
  | FixationDuration => {| lowThreshold := 300; highThreshold := 400; direction := HighValueIsRisk |}
  | SaccadeLength => {| lowThreshold := 20; highThreshold := 35; direction := LowValueIsRisk |}
  | PhonemeErrors => {| lowThreshold := 8; highThreshold := 12; direction := HighValueIsRisk |}
  | SpellingErrors => {| lowThreshold := 5; highThreshold := 10; direction := HighValueIsRisk |}
  | ComprehensionScore => {| lowThreshold := 60; highThreshold := 80; direction := LowValueIsRisk |}
  end.

(** The score the specification reads off a row of the table. *)
Definition tableScore (row : TableRow) (v : number) : Z :=
  match direction row with
  | LowValueIsRisk =>
      if JS.lt v (JS.of_Z (lowThreshold row)) then 2
      else if JS.lt v (JS.of_Z (highThreshold row)) then 1 else 0
  | HighValueIsRisk =>
      if JS.gt v (JS.of_Z (highThreshold row)) then 2
      else if JS.gt v (JS.of_Z (lowThreshold row)) then 1 else 0
  end.

(** The weights of the specification, as decimal numerals. *)
Definition specWeight (f : Field) : number :=
  match f with
  | ReadingSpeed => JS.of_decimal false 25 (-2)
  | FixationDuration => JS.of_decimal false 15 (-2)
  | SaccadeLength => JS.of_decimal false 15 (-2)
  | PhonemeErrors => JS.of_decimal false 20 (-2)
  | SpellingErrors => JS.of_decimal false 15 (-2)
  | ComprehensionScore => JS.of_decimal false 10 (-2)
  end.

(** The elements of an array paired with their positions, counted from [i]. *)
Fixpoint indexedFrom (i : nat) (xs : list number) : list (nat * number) :=
  match xs with
  | x :: xs' => (i, x) :: indexedFrom (S i) xs'
  | [] => []
  end.

(** What one call of the callback adds to [riskScore]. *)
Definition contribution (iv : nat * number) : number :=
  JS.mul (score (fst iv) (snd iv)) (at_index weights (fst iv)).

(** The sum of a list of numbers, left to right from 0. *)
Definition sum (xs : list number) : number := fold_left JS.add xs (JS.of_Z 0).

(** The weighted sum of the specification: score times weight, summed over
    the fields in declaration order. *)
Definition weightedSum (d : FormDataType) : number :=
  sum (map (fun f => JS.mul (fieldScore f d) (specWeight f)) fields).

(** The confidence formula of the specification. *)
Definition confidenceOf (r : number) : number :=
  JS.mul (JS.sub (JS.of_Z 1) (JS.div (JS.abs (JS.sub (JS.of_Z 5) r)) (JS.of_Z 5)))
         (JS.of_Z 100).

(** Equality of two numbers as values of [spec_float], decided. *)
Definition same (a b : number) : bool :=
  match a, b with
  | S754_zero s, S754_zero s' => Bool.eqb s s'
  | S754_infinity s, S754_infinity s' => Bool.eqb s s'
  | S754_nan, S754_nan => true
  | S754_finite s m e, S754_finite s' m' e' => Bool.eqb s s' && Pos.eqb m m' && Z.eqb e e'
  | _, _ => false
  end.

(** The risk score as a function of the six scores. *)
Definition normalizedScoreOf (ss : list number) : number :=
  JS.mul (JS.div (sum (map (fun sw => JS.mul (fst sw) (snd sw)) (combine ss weights)))
                 (JS.of_Z 2))
         (JS.of_Z 10).

(** All lists of [n] scores. *)
Fixpoint scoreTuples (n : nat) : list (list number) :=
  match n with
  | O => [[]]
  | S n' =>
      flat_map (fun ss => [JS.of_Z 0 :: ss; JS.of_Z 1 :: ss; JS.of_Z 2 :: ss])
               (scoreTuples n')
  end.

(** A property of the risk score, checked on every tuple of scores. *)
Definition holdsForAllScores (P : number -> bool) : bool :=
  forallb (fun ss => P (normalizedScoreOf ss)) (scoreTuples 6).

(** *** Uploads *)

(** The arrays [lines], [header] and [data] that [handleCSVUpload] derives
    from the text of an upload. *)
Definition uploadLines (text : string) : list string :=
  JS.split JS.LF (JS.trim text).

Definition uploadHeader (text : string) : list string :=
  JS.split "," (JS.toLowerCase (nth 0 (uploadLines text) "")).

Definition uploadData (text : string) : list string :=
  JS.split "," (nth 1 (uploadLines text) "").

(** The header [hd] holds the label [h], white space around it allowed. *)
Definition hasLabel (hd : list string) (h : string) : Prop :=
  exists c, In c hd /\ JS.trim c = h.

(** The header check of [handleCSVUpload]. *)
Definition validFormat (text : string) : bool :=
  forallb (fun h => existsb (fun c => String.eqb (JS.trim c) h) (uploadHeader text))
          expectedHeaders.

(** The value of the data row in the column the lookup finds for a field;
    [None] when the lookup finds no column or the row is too short. *)
Definition cell (text : string) (f : Field) : option string :=
  JS.item (uploadData text) (JS.indexOf (label f) (uploadHeader text)).

(** What the object literal [newFormData] holds for a field. *)
Definition convertedField (text : string) (f : Field) : number :=
  JS.or (JS.Number (cell text f)) (value f initialFormData).

Definition converted (text : string) : FormDataType := {|
  readingSpeed := convertedField text ReadingSpeed;
  fixationDuration := convertedField text FixationDuration;
  saccadeLength := convertedField text SaccadeLength;
  phonemeErrors := convertedField text PhonemeErrors;
  spellingErrors := convertedField text SpellingErrors;
  comprehensionScore := convertedField text ComprehensionScore
|}.

Definition tooFewLines : string :=
  "CSV file must contain a header row and at least one data row".

Definition invalidFormat : string :=
  "Invalid CSV format. Please ensure the headers match the required format.".

(** The two messages of a format error. *)
Definition isFormatError (message : string) : Prop :=
  message = tooFewLines \/ message = invalidFormat.

(** The message that names a field. *)
Definition invalidNumberIn (f : Field) : string := "Invalid number in " ++ label f.

Definition withCsvError (message : option string) (st : AppState) : AppState :=
  {| formData := formData st; result := result st; activeTab := activeTab st;
     inputMethod := inputMethod st; csvError := message |}.

(** The state after an upload that passed validation. *)
Definition uploaded (text : string) (st : AppState) : AppState :=
  {| formData := converted text; result := Some (analyzeData (converted text));
     activeTab := "results"; inputMethod := inputMethod st; csvError := None |}.

(** The state a handler leaves. *)
Definition after (handler : Eff unit) (st : AppState) : AppState := snd (handler st).

(** An upload: a header line and one data line. *)
Definition upload (headerLine dataLine : string) : string :=
  headerLine ++ String JS.LF dataLine.

Definition standardHeader : string :=
  "reading speed,fixation duration,saccade length,phoneme errors,spelling errors,comprehension score".

Definition CR : ascii := "013"%char.

(** The extreme record of the specification. *)
Definition extremeRecord : FormDataType := {|
  readingSpeed := JS.of_Z 0;
  fixationDuration := JS.of_Z 500;
  saccadeLength := JS.of_Z 0;
  phonemeErrors := JS.of_Z 20;
  spellingErrors := JS.of_Z 20;
  comprehensionScore := JS.of_Z 0
|}.

(** A record with the scores 1, 1, 2, 1, 0, 1. *)
Definition shortSaccadeRecord : FormDataType := {|
  readingSpeed := JS.of_Z 60;
  fixationDuration := JS.of_Z 350;
  saccadeLength := JS.of_Z 10;
  phonemeErrors := JS.of_Z 10;
  spellingErrors := JS.of_Z 3;
  comprehensionScore := JS.of_Z 70
|}.

(** The reading of the specification under which an unparseable value makes
    the upload fail: as soon as the data row holds, in the column found for
    a field, a value that converts to NaN, the upload ends with an error. *)
Definition rejectsUnparseableValues (text : string) (st : AppState) : Prop :=
  forall f s,
    cell text f = Some s -> JS.isNaN (JS.Number (Some s)) = true ->
    csvError (after (handleCSVUpload (Some text)) st) <> None.

(* ================================================================== *)
(** ** Further vocabulary *)
(* ================================================================== *)

(** *** Tables of risk scores *)

(** A score. *)
Definition isScore (s : number) : Prop := s = JS.of_Z 0 \/ s = JS.of_Z 1 \/ s = JS.of_Z 2.

(** A table indexed by tuples of scores: one branch per score at each
    position, the entry at the end of the path. *)
Inductive ScoreTable : Set :=
  | Entry (r : number)
  | Branch (t0 t1 t2 : ScoreTable).

(** The table of [f] on the tuples of [n] scores. *)
Fixpoint tabulate (n : nat) (f : list number -> number) : ScoreTable :=
  match n with
  | O => Entry (f [])
  | S n' =>
      Branch (tabulate n' (fun ss => f (JS.of_Z 0 :: ss)))
             (tabulate n' (fun ss => f (JS.of_Z 1 :: ss)))
             (tabulate n' (fun ss => f (JS.of_Z 2 :: ss)))
  end.

(** The risk score of every tuple of six scores, evaluated once. *)
Definition riskTable : ScoreTable :=
  Eval vm_compute in tabulate 6 normalizedScoreOf.

(** [P] holds of every tuple and its entry. *)
Fixpoint forallEntries (P : list number -> number -> bool) (t : ScoreTable) : bool :=
  match t with
  | Entry r => P [] r
  | Branch t0 t1 t2 =>
      forallEntries (fun ss => P (JS.of_Z 0 :: ss)) t0
      && forallEntries (fun ss => P (JS.of_Z 1 :: ss)) t1
      && forallEntries (fun ss => P (JS.of_Z 2 :: ss)) t2
  end.

(** Entry by entry, [t] is at most [t']. *)
Fixpoint pointwiseLe (t t' : ScoreTable) : bool :=
  match t, t' with
  | Entry r, Entry r' => JS.le r r'
  | Branch t0 t1 t2, Branch t0' t1' t2' =>
      pointwiseLe t0 t0' && pointwiseLe t1 t1' && pointwiseLe t2 t2'
  | _, _ => false
  end.

(** At every position, the entries grow with the score. *)
Fixpoint growing (t : ScoreTable) : bool :=
  match t with
  | Entry r => JS.le r r
  | Branch t0 t1 t2 =>
      pointwiseLe t0 t1 && pointwiseLe t1 t2 && growing t0 && growing t1 && growing t2
  end.

(** [d'] is at least as risky as [d] in the measurement of [f]: not larger
    where a low value is the risk, not smaller where a high value is. *)
Definition riskierIn (f : Field) (d d' : FormDataType) : Prop :=
  match direction (table f) with
  | LowValueIsRisk => JS.le (value f d') (value f d) = true
  | HighValueIsRisk => JS.le (value f d) (value f d') = true
  end.

(** The number of scores above 0. *)
Definition aboveLow (ss : list number) : nat :=
  List.length (filter (fun s => negb (same s (JS.of_Z 0))) ss).

(** The six scores of a record, in declaration order. *)
Definition scoresOf (d : FormDataType) : list number := map (fun f => fieldScore f d) fields.

(** *** Lines *)

(** Only white space. *)
Fixpoint blank (s : string) : bool :=
  match s with
  | String c s' => JS.isWhiteSpace c && blank s'
  | EmptyString => true
  end.

(** No occurrence of the code unit [sep]. *)
Fixpoint without (sep : ascii) (s : string) : bool :=
  match s with
  | String c s' => negb (Ascii.eqb c sep) && without sep s'
  | EmptyString => true
  end.

(** Two strings that agree up to trailing white space. *)
Definition sameUpToTrailingSpace (x y : string) : Prop := JS.trimEnd x = JS.trimEnd y.

(** *** Columns *)

(** A line of comma-separated cells. *)
Definition csvLine (cells : list string) : string := String.concat "," cells.

(** A column of an upload, its label above its cell: neither holds a comma
    or a line feed, and the label starts with something else than white
    space. *)
Definition cleanColumn (col : string * string) : Prop :=
  without "," (fst col) = true /\ without JS.LF (fst col) = true
  /\ blank (substring 0 1 (fst col)) = false
  /\ without "," (snd col) = true /\ without JS.LF (snd col) = true.

(** The upload made of the columns [cols], in their order. *)
Definition uploadOf (cols : list (string * string)) : string :=
  upload (csvLine (map fst cols)) (csvLine (map snd cols)).

(** The cell under the first label that is [l] in lower case. *)
Definition cellUnder (l : string) (cols : list (string * string)) : option string :=
  option_map snd (find (fun col => String.eqb (JS.toLowerCase (fst col)) l) cols).

(** *** Events *)

Definition setInputMethod (v : string) : Eff unit :=
  fun st => (inr tt, {| formData := formData st; result := result st; activeTab := activeTab st;
                        inputMethod := v; csvError := csvError st |}).

(** The property name of a field, which is also the name of its slider. *)
Definition key (f : Field) : string :=
  match f with
  | ReadingSpeed => "readingSpeed"
  | FixationDuration => "fixationDuration"
  | SaccadeLength => "saccadeLength"
  | PhonemeErrors => "phonemeErrors"
  | SpellingErrors => "spellingErrors"
  | ComprehensionScore => "comprehensionScore"
  end.

(** What the user can do to the component: move a slider, choose a file,
    submit the form, and click one of the four buttons.  A handler runs to
    its end before the next event is handled. *)
Inductive Event : Set :=
  | MoveSlider (name value : string)
  | ChooseFile (file : option string)
  | SubmitForm
  | ClickInputTab
  | ClickResultsTab
  | ClickManualInput
  | ClickCSVUpload.

(** The handler the component attaches to each event.  The Results button
    is [disabled] while there is no result, so a click on it does nothing
    then. *)
Definition handle (e : Event) : Eff unit :=
  match e with
  | MoveSlider name value => handleInputChange name value
  | ChooseFile file => handleCSVUpload file
  | SubmitForm => handleSubmit
  | ClickInputTab => setActiveTab "input"
  | ClickResultsTab =>
      fun st => match result st with
                | Some _ => setActiveTab "results" st
                | None => ret tt st
                end
  | ClickManualInput => setInputMethod "manual"
  | ClickCSVUpload => setInputMethod "csv"
  end.

(** The state after a sequence of events. *)
Fixpoint run (es : list Event) (st : AppState) : AppState :=
  match es with
  | e :: es' => run es' (after (handle e) st)
  | [] => st
  end.


(** The [max] of the slider of a property; the [min] is 0. *)
Definition sliderMax (name : string) : Z :=
  if String.eqb name "comprehensionScore" then 100 else 500.

(** *** Charts *)

(** [Object.values(result.details)] *)
Definition detailsValues (ds : Details) : list string :=
  [ readingSpeedRisk ds; fixationRisk ds; saccadeRisk ds;
    phonemeRisk ds; spellingRisk ds; comprehensionRisk ds ].

(** The labels of the bar chart and of the radar chart. *)
Definition chartLabels : list string :=
  [ "Reading Speed"; "Fixation Duration"; "Saccade Length";
    "Phoneme Errors"; "Spelling Errors"; "Comprehension" ].

(** [radarChartData.datasets[0].data] *)
Definition radarData (result : option Result) : list number :=
  match result with
  | Some r =>
      map (fun risk => if String.eqb risk "High" then JS.of_Z 3
                       else if String.eqb risk "Medium" then JS.of_Z 2
                       else JS.of_Z 1)
          (detailsValues (details r))
  | None => []
  end.

(** [doughnutChartData.datasets[0].data] *)
Definition doughnutData (result : option Result) : list number :=
  match result with
  | Some r => [riskScore r; JS.sub (JS.of_Z 10) (riskScore r)]
  | None => [JS.of_Z 0; JS.of_Z 10]
  end.

(** *** The results panel *)

(** [a === b] on numbers. *)
Definition strictEq (a b : number) : bool := SFeqb a b.

(** The heading of the panel. *)
Definition heading (r : Result) : string :=
  if strictEq (prediction r) (JS.of_Z 1) then "Dyslexia Risk Detected" else "Low Dyslexia Risk".

(** Whether the panel shows the recommendations. *)
Definition showsRecommendations (r : Result) : bool := strictEq (prediction r) (JS.of_Z 1).

(** The decimal digits of a natural number, "0" for 0. *)
Definition digits (n : Z) : string := NilZero.string_of_uint (N.to_uint (Z.to_N n)).

(** [count] copies of the code unit [c]. *)
Fixpoint repeatUnit (c : ascii) (count : nat) : string :=
  match count with
  | O => EmptyString
  | S k => String c (repeatUnit c k)
  end.

(** The integer [n] of [toFixed]: the one for which [n / 10^f] is nearest to
    [m * 2^e], the larger one of two. *)
Definition nearestScaled (m : positive) (e : Z) (f : nat) : Z :=
  let scaled := Zpos m * 10 ^ Z.of_nat f in
  match e with
  | Zneg k => (2 * scaled + 2 ^ Zpos k) / 2 ^ (Zpos k + 1)
  | _ => scaled * 2 ^ e
  end.

(** The digits of [n] with a point in front of the last [f] of them, zeros
    added in front where there are not more than [f] digits. *)
Definition pointed (n : Z) (f : nat) : string :=
  let m := digits n in
  match f with
  | O => m
  | _ =>
      let m := repeatUnit "0" (S f - String.length m) ++ m in
      let k := String.length m in
      substring 0 (k - f) m ++ "." ++ substring (k - f) f m
  end.

(** [x.toFixed(f)] for [f] from 0 to 100; [None] where the engine falls
    back on its general number-to-string conversion (from 10^21 on). *)
Definition toFixed (x : number) (f : nat) : option string :=
  match x with
  | S754_nan => Some "NaN"
  | S754_infinity s => Some (if s then "-Infinity" else "Infinity")
  | S754_zero _ => Some (pointed 0 f)
  | S754_finite s m e =>
      if (match e with
          | Zneg k => (10 ^ 21 * 2 ^ Zpos k <=? Zpos m)%Z
          | _ => (10 ^ 21 <=? Zpos m * 2 ^ e)%Z
          end)
      then None
      else Some ((if s then "-" else "") ++ pointed (nearestScaled m e f) f)
  end.

(** The text under the doughnut chart: [{result.riskScore.toFixed(1)}/10]. *)
Definition riskScoreText (r : Result) : option string :=
  option_map (fun s => s ++ "/10") (toFixed (riskScore r) 1).

(** The number of tenths the text of a risk score shows. *)
Definition shownTenths (x : number) : Z :=
  match x with
  | S754_finite _ m e => nearestScaled m e 1
  | _ => 0
  end.

(** What is checked of every risk score: the text shows its tenths, from 0
    to 100, and more than 50 of them only from 5 on, fewer only below. *)
Definition textAgreesWithThreshold (x : number) : bool :=
  match toFixed x 1 with
  | Some s =>
      String.eqb s (pointed (shownTenths x) 1)
      && (0 <=? shownTenths x)%Z && (shownTenths x <=? 100)%Z
      && implb (50 <? shownTenths x)%Z (JS.ge x (JS.of_Z 5))
      && implb (shownTenths x <? 50)%Z (negb (JS.ge x (JS.of_Z 5)))
  | None => false
  end.

(* ================================================================== *)
(** ** Proof tools *)
(* ================================================================== *)

(** Case analysis on the condition of a conditional of the goal. *)
Ltac case_if :=
  match goal with |- context [if ?c then _ else _] => destruct c end.

Lemma same_spec (a b : number) : same a b = true <-> a = b.
Proof.
  split.
  - destruct a as [s|s| |s m e], b as [s'|s'| |s' m' e']; simpl; try discriminate;
      intros H; try reflexivity.
    + apply Bool.eqb_prop in H. now subst.
    + apply Bool.eqb_prop in H. now subst.
    + apply andb_prop in H as [H He]. apply andb_prop in H as [Hs Hm].
      apply Bool.eqb_prop in Hs. apply Pos.eqb_eq in Hm. apply Z.eqb_eq in He.
      now subst.
  - intros <-. destruct a as [s|s| |s m e]; simpl; trivial.
    + now destruct s.
    + now destruct s.
    + rewrite Pos.eqb_refl, Z.eqb_refl. now destruct s.
Qed.

Lemma not_In_existsb (x : string) (a : list string) :
  existsb (String.eqb x) a = false -> ~ In x a.
Proof.
  intros H Hin. assert (existsb (String.eqb x) a = true); [|congruence].
  apply existsb_exists. exists x. split; [exact Hin|apply String.eqb_refl].
Qed.

(* ================================================================== *)
(** ** The scorer *)
(* ================================================================== *)

(** Whatever the index and the value, the callback's score is 0, 1 or 2. *)
Lemma score_cases (index : nat) (v : number) :
  score index v = JS.of_Z 0 \/ score index v = JS.of_Z 1 \/ score index v = JS.of_Z 2.
Proof.
  do 6 (destruct index as [|index];
        [unfold score; case_if; auto; case_if; auto|]).
  auto.
Qed.

(** [forEach] adds the contributions of the elements to the accumulator,
    from the first element to the last. *)
Lemma forEach_fold (fs : list number) :
  forall (i : nat) (acc : number),
    forEach fs i acc = fold_left JS.add (map contribution (indexedFrom i fs)) acc.
Proof.
  induction fs as [|v fs IH]; intros i acc; [reflexivity|].
  cbn [forEach indexedFrom map fold_left]. now rewrite IH.
Qed.

Lemma scoreTuples_complete (ss : list number) :
  Forall (fun s => s = JS.of_Z 0 \/ s = JS.of_Z 1 \/ s = JS.of_Z 2) ss ->
  In ss (scoreTuples (List.length ss)).
Proof.
  induction 1 as [|s ss Hs _ IH]; [now left|].
  cbn [List.length scoreTuples]. apply in_flat_map. exists ss. split; [exact IH|].
  destruct Hs as [->|[->| ->]]; cbn; auto.
Qed.

Section Scorer.

Variable d : FormDataType.

Lemma features_by_field (f : Field) : at_index (features d) (position f) = value f d.
Proof. destruct f; reflexivity. Qed.

(** The value [forEach] leaves in [riskScore] is the weighted sum. *)
Lemma forEach_weightedSum : forEach (features d) 0 (JS.of_Z 0) = weightedSum d.
Proof. rewrite forEach_fold. reflexivity. Qed.

Lemma riskScore_weightedSum :
  riskScore (analyzeData d) = JS.mul (JS.div (weightedSum d) (JS.of_Z 2)) (JS.of_Z 10).
Proof.
  rewrite <- forEach_weightedSum. reflexivity.
Qed.

Lemma riskScore_normalizedScoreOf :
  riskScore (analyzeData d) = normalizedScoreOf (map (fun f => fieldScore f d) fields).
Proof. rewrite riskScore_weightedSum. reflexivity. Qed.

Lemma prediction_by_riskScore :
  prediction (analyzeData d)
  = if JS.ge (riskScore (analyzeData d)) (JS.of_Z 5) then JS.of_Z 1 else JS.of_Z 0.
Proof. reflexivity. Qed.

Lemma confidence_by_riskScore :
  confidence (analyzeData d) = confidenceOf (riskScore (analyzeData d)).
Proof. reflexivity. Qed.

(** A property checked on all 729 tuples of scores holds of the risk score
    of every record. *)
Lemma riskScore_enum (P : number -> bool) :
  holdsForAllScores P = true -> P (riskScore (analyzeData d)) = true.
Proof.
  intros H. unfold holdsForAllScores in H. rewrite forallb_forall in H.
  rewrite riskScore_normalizedScoreOf. apply H.
  apply (scoreTuples_complete (map (fun f => fieldScore f d) fields)).
  cbn [map fields].
  repeat (apply Forall_cons; [apply score_cases|]). apply Forall_nil.
Qed.

End Scorer.

(** C1.  Every field of every record gets the score the threshold table
    gives it: for a "low value = risk" field 2 below the low threshold, else
    1 below the high one, else 0; for a "high value = risk" field 2 above
    the high threshold, else 1 above the low one, else 0.  The score is 0, 1
    or 2, and it is the score the callback computes at the field's position
    in [features]. *)
Theorem score_follows_threshold_table (d : FormDataType) (f : Field) :
  score (position f) (at_index (features d) (position f))
    = JS.of_Z (tableScore (table f) (value f d))
  /\ In (tableScore (table f) (value f d)) [0; 1; 2].
Proof.
  rewrite features_by_field.
  destruct f; unfold score, tableScore, table, direction, lowThreshold, highThreshold;
    cbn [position thresholds low high Thresholds.readingSpeed Thresholds.fixationDuration
         Thresholds.saccadeLength Thresholds.phonemeErrors Thresholds.spellingErrors
         Thresholds.comprehensionScore];
    repeat case_if; (split; [reflexivity | cbn; auto]).
Qed.

(** C2.  For every record the risk score is [(weightedSum / 2) * 10], where
    [weightedSum] adds score times weight over the six fields in declaration
    order with the weights 0.25, 0.15, 0.15, 0.20, 0.15, 0.10; and the risk
    score lies between 0 and 10. *)
Theorem riskScore_is_scaled_weighted_sum (d : FormDataType) :
  riskScore (analyzeData d)
    = JS.mul (JS.div (weightedSum d) (JS.of_Z 2)) (JS.of_Z 10)
  /\ JS.le (JS.of_Z 0) (riskScore (analyzeData d)) = true
  /\ JS.le (riskScore (analyzeData d)) (JS.of_Z 10) = true.
Proof.
  split; [apply riskScore_weightedSum|].
  apply andb_prop.
  apply (riskScore_enum d (fun r => JS.le (JS.of_Z 0) r && JS.le r (JS.of_Z 10))).
  vm_compute. reflexivity.
Qed.

(** C3.  For every record the prediction is 1 exactly when the risk score is
    at least 5, the boundary 5 included, and it is 0 otherwise. *)
Theorem prediction_iff_riskScore_ge_5 (d : FormDataType) :
  (prediction (analyzeData d) = JS.of_Z 1
     <-> JS.ge (riskScore (analyzeData d)) (JS.of_Z 5) = true)
  /\ (riskScore (analyzeData d) = JS.of_Z 5 -> prediction (analyzeData d) = JS.of_Z 1)
  /\ (JS.ge (riskScore (analyzeData d)) (JS.of_Z 5) = false
      -> prediction (analyzeData d) = JS.of_Z 0).
Proof.
  rewrite prediction_by_riskScore.
  split; [split|split].
  - intros H. destruct (JS.ge (riskScore (analyzeData d)) (JS.of_Z 5)); [reflexivity|].
    discriminate H.
  - intros H. now rewrite H.
  - intros H. now rewrite H.
  - intros H. now rewrite H.
Qed.

Lemma prediction_iff_riskScore_ge_5_witness :
  prediction (analyzeData initialFormData) = JS.of_Z 1.
Proof.
  apply (prediction_iff_riskScore_ge_5 initialFormData). vm_compute. reflexivity.
Defined.

(** C4.  For every record the confidence is [(1 - |5 - riskScore| / 5) * 100];
    it lies between 0 and 100, it is 100 exactly when the risk score is 5,
    and it is 0 when the risk score is 0 or 10. *)
Theorem confidence_formula_and_range (d : FormDataType) :
  confidence (analyzeData d) = confidenceOf (riskScore (analyzeData d))
  /\ JS.le (JS.of_Z 0) (confidence (analyzeData d)) = true
  /\ JS.le (confidence (analyzeData d)) (JS.of_Z 100) = true
  /\ (confidence (analyzeData d) = JS.of_Z 100 <-> riskScore (analyzeData d) = JS.of_Z 5)
  /\ (riskScore (analyzeData d) = JS.of_Z 0 \/ riskScore (analyzeData d) = JS.of_Z 10
      -> confidence (analyzeData d) = JS.of_Z 0).
Proof.
  rewrite confidence_by_riskScore. split; [reflexivity|].
  pose proof (riskScore_enum d (fun r =>
    JS.le (JS.of_Z 0) (confidenceOf r) && JS.le (confidenceOf r) (JS.of_Z 100)
    && Bool.eqb (same (confidenceOf r) (JS.of_Z 100)) (same r (JS.of_Z 5)))) as H.
  cbv beta in H.
  generalize dependent (riskScore (analyzeData d)). intros r H.
  specialize (H ltac:(vm_compute; reflexivity)).
  apply andb_prop in H as [H Hiff]. apply andb_prop in H as [H0 H100].
  apply Bool.eqb_prop in Hiff.
  split; [exact H0|]. split; [exact H100|]. split; [split|].
  - intros Hc. apply same_spec. rewrite <- Hiff. now apply same_spec.
  - intros Hr. apply same_spec. rewrite Hiff. now apply same_spec.
  - intros [-> | ->]; vm_compute; reflexivity.
Qed.

Lemma confidence_formula_and_range_witness :
  confidence (analyzeData initialFormData) = JS.of_Z 100.
Proof.
  apply (confidence_formula_and_range initialFormData). vm_compute. reflexivity.
Defined.

(** C8.  For every record and each field, the level in [details] is Low
    exactly when the field's score is 0, Medium exactly when it is 1 and
    High exactly when it is 2. *)
Theorem risk_level_matches_score (d : FormDataType) (f : Field) :
  (riskLevel f (details (analyzeData d)) = "Low" <-> fieldScore f d = JS.of_Z 0)
  /\ (riskLevel f (details (analyzeData d)) = "Medium" <-> fieldScore f d = JS.of_Z 1)
  /\ (riskLevel f (details (analyzeData d)) = "High" <-> fieldScore f d = JS.of_Z 2).
Proof.
  destruct f; unfold fieldScore, analyzeData, score;
    cbn [details riskLevel readingSpeedRisk fixationRisk saccadeRisk phonemeRisk
         spellingRisk comprehensionRisk position value features at_index nth];
    repeat case_if;
    (split; [split|split; split]); intros H; try reflexivity; try discriminate H;
    vm_compute in H; discriminate H.
Qed.

Lemma risk_level_matches_score_witness :
  riskLevel ReadingSpeed (details (analyzeData initialFormData)) = "Medium".
Proof.
  apply (risk_level_matches_score initialFormData ReadingSpeed). vm_compute. reflexivity.
Defined.

(** C9.  On the default record all six scores are 1 and all six levels are
    Medium, the weighted sum is 1, the risk score is 5, the prediction is 1
    and the confidence is 100. *)
Theorem default_record_result :
  (forall f, fieldScore f initialFormData = JS.of_Z 1
             /\ riskLevel f (details (analyzeData initialFormData)) = "Medium")
  /\ weightedSum initialFormData = JS.of_Z 1
  /\ forEach (features initialFormData) 0 (JS.of_Z 0) = JS.of_Z 1
  /\ riskScore (analyzeData initialFormData) = JS.of_Z 5
  /\ prediction (analyzeData initialFormData) = JS.of_Z 1
  /\ confidence (analyzeData initialFormData) = JS.of_Z 100.
Proof.
  split; [intros f; destruct f; split; vm_compute; reflexivity|].
  repeat split; vm_compute; reflexivity.
Qed.

(** The extreme record of the specification: six scores 2, risk score 10,
    prediction 1, confidence 0. *)
Example extreme_record_result :
  map (fun f => fieldScore f extremeRecord) fields = repeat (JS.of_Z 2) 6
  /\ riskScore (analyzeData extremeRecord) = JS.of_Z 10
  /\ prediction (analyzeData extremeRecord) = JS.of_Z 1
  /\ confidence (analyzeData extremeRecord) = JS.of_Z 0.
Proof. repeat split; vm_compute; reflexivity. Qed.

(** The sums are binary64 sums.  With the scores 1, 1, 2, 1, 0, 1 the
    weights add up to 1 on paper (0.25 + 0.15 + 0.30 + 0.20 + 0.10), but the
    rounded sum is the number just below 1: the risk score is the number
    just below 5 and the prediction is 0. *)
Example rounded_sum_below_the_boundary :
  map (fun f => fieldScore f shortSaccadeRecord) fields
    = map JS.of_Z [1; 1; 2; 1; 0; 1]
  /\ riskScore (analyzeData shortSaccadeRecord) = S754_finite false 5629499534213119 (-50)
  /\ JS.lt (riskScore (analyzeData shortSaccadeRecord)) (JS.of_Z 5) = true
  /\ prediction (analyzeData shortSaccadeRecord) = JS.of_Z 0.
Proof. repeat split; vm_compute; reflexivity. Qed.

(* ================================================================== *)
(** ** The upload path *)
(* ================================================================== *)

Lemma or_not_NaN (x y : number) : JS.isNaN y = false -> JS.isNaN (JS.or x y) = false.
Proof. intros Hy. unfold JS.or. destruct x; simpl; auto. Qed.

Lemma hasLabel_existsb (hd : list string) (h : string) :
  hasLabel hd h <-> existsb (fun c => String.eqb (JS.trim c) h) hd = true.
Proof.
  unfold hasLabel. rewrite existsb_exists.
  split; intros [c [Hc E]]; exists c; split; trivial; now apply String.eqb_eq.
Qed.

(** [indexOf] answers [-1] for what the array does not hold. *)
Lemma indexOf_from_absent (x : string) (a : list string) :
  ~ In x a -> forall i, JS.indexOf_from x a i = -1.
Proof.
  induction a as [|y a IH]; intros Hn i; [reflexivity|].
  cbn [JS.indexOf_from]. destruct (String.eqb y x) eqn:E.
  - apply String.eqb_eq in E. exfalso. apply Hn. now left.
  - apply IH. intros Hin. apply Hn. now right.
Qed.

(** On its own the "Validate numbers" pass rejects a record that holds a
    NaN, with the message that names the first such field. *)
Lemma validateNumbers_first_NaN (d : FormDataType) (st0 : AppState) :
  validateNumbers (entries d) st0 =
  match find (fun f => JS.isNaN (value f d)) fields with
  | Some f => (inl (invalidNumberIn f), st0)
  | None => (inr tt, st0)
  end.
Proof.
  destruct d as [v0 v1 v2 v3 v4 v5].
  unfold entries, fields.
  cbn [validateNumbers find value readingSpeed fixationDuration saccadeLength
       phonemeErrors spellingErrors comprehensionScore].
  unfold bind, throw, ret.
  destruct (JS.isNaN v0); [reflexivity|]. destruct (JS.isNaN v1); [reflexivity|].
  destruct (JS.isNaN v2); [reflexivity|]. destruct (JS.isNaN v3); [reflexivity|].
  destruct (JS.isNaN v4); [reflexivity|]. destruct (JS.isNaN v5); reflexivity.
Qed.

Section Upload.

Variable text : string.
Variable st : AppState.

(** A default stands in for whatever converts to NaN, so no field of
    [newFormData] is NaN. *)
Lemma convertedField_not_NaN (f : Field) : JS.isNaN (convertedField text f) = false.
Proof. apply or_not_NaN. destruct f; reflexivity. Qed.

(** The "Validate numbers" pass never throws on [newFormData]. *)
Lemma validateNumbers_converted (st0 : AppState) :
  validateNumbers (entries (converted text)) st0 = (inr tt, st0).
Proof.
  unfold entries, converted.
  cbn [validateNumbers readingSpeed fixationDuration saccadeLength phonemeErrors
       spellingErrors comprehensionScore].
  unfold bind. rewrite !convertedField_not_NaN. reflexivity.
Qed.

(** The three ways an upload ends. *)
Lemma handleCSVUpload_Some :
  handleCSVUpload (Some text) st =
  (inr tt,
   if (List.length (uploadLines text) <? 2)%nat then withCsvError (Some tooFewLines) st
   else if negb (validFormat text) then withCsvError (Some invalidFormat) st
   else uploaded text st).
Proof.
  unfold handleCSVUpload.
  change (JS.split JS.LF (JS.trim text)) with (uploadLines text).
  unfold bind at 1. cbn [setCsvError]. unfold catch. unfold bind at 1.
  destruct (List.length (uploadLines text) <? 2)%nat eqn:Hl; [reflexivity|].
  unfold ret at 1. cbv iota beta. unfold bind at 1.
  change (forallb _ expectedHeaders) with (validFormat text).
  destruct (validFormat text) eqn:Hv; cbn [negb]; [|reflexivity].
  unfold ret at 1. cbv iota beta. unfold bind at 1.
  change (Build_FormDataType _ _ _ _ _ _) with (converted text).
  rewrite validateNumbers_converted. reflexivity.
Qed.

Lemma after_upload :
  after (handleCSVUpload (Some text)) st =
  if (List.length (uploadLines text) <? 2)%nat then withCsvError (Some tooFewLines) st
  else if negb (validFormat text) then withCsvError (Some invalidFormat) st
  else uploaded text st.
Proof. unfold after. now rewrite handleCSVUpload_Some. Qed.

Lemma validFormat_hasLabel :
  validFormat text = true <->
  forall h, In h expectedHeaders -> hasLabel (uploadHeader text) h.
Proof.
  unfold validFormat. rewrite forallb_forall.
  split; intros H h Hh; apply hasLabel_existsb; auto.
Qed.

Lemma validFormat_false :
  (exists h, In h expectedHeaders /\ ~ hasLabel (uploadHeader text) h) ->
  validFormat text = false.
Proof.
  intros [h [Hh Hn]]. destruct (validFormat text) eqn:E; trivial.
  exfalso. apply Hn. now apply validFormat_hasLabel.
Qed.

(** A field whose exact label is not in the header reads [undefined]. *)
Lemma cell_absent (f : Field) : ~ In (label f) (uploadHeader text) -> cell text f = None.
Proof.
  intros Hn. unfold cell, JS.indexOf. rewrite indexOf_from_absent by exact Hn.
  reflexivity.
Qed.

Lemma value_converted (f : Field) : value f (converted text) = convertedField text f.
Proof. destruct f; reflexivity. Qed.

(** An upload that passes both checks replaces the record and the result. *)
Lemma upload_accepted :
  (2 <= List.length (uploadLines text))%nat ->
  validFormat text = true ->
  after (handleCSVUpload (Some text)) st = uploaded text st.
Proof.
  intros Hl Hv. rewrite after_upload, Hv.
  destruct (Nat.ltb_spec (List.length (uploadLines text)) 2); [lia|reflexivity].
Qed.

End Upload.

(** C5.  The data row gives 0 phoneme errors.  The value converts to the
    number 0, yet the record produced holds the default 10, with no error;
    the same 0 entered by hand is stored as 0.  The upload is therefore
    scored 5 and predicted 1, the hand-entered record 4 and predicted 0. *)
Theorem uploaded_zero_is_replaced_by_default :
  let text := upload standardHeader "60,350,30,0,7,70" in
  let st' := after (handleCSVUpload (Some text)) initialState in
  let manual := after (handleInputChange "phonemeErrors" "0") initialState in
  cell text PhonemeErrors = Some "0"
  /\ JS.Number (Some "0") = JS.of_Z 0
  /\ csvError st' = None
  /\ phonemeErrors (formData st') = JS.of_Z 10
  /\ phonemeErrors (formData manual) = JS.of_Z 0
  /\ option_map riskScore (result st') = Some (JS.of_Z 5)
  /\ option_map prediction (result st') = Some (JS.of_Z 1)
  /\ riskScore (analyzeData (formData manual)) = JS.of_Z 4
  /\ prediction (analyzeData (formData manual)) = JS.of_Z 0.
Proof. vm_compute. repeat split. Qed.

(** C6 does not hold as stated: the reading speed of this upload is "abc",
    which converts to NaN, and the upload is accepted without any error;
    the record produced holds the default reading speed. *)
Lemma unparseable_value_is_not_rejected :
  let text := upload standardHeader "abc,350,30,10,7,70" in
  ~ rejectsUnparseableValues text initialState
  /\ csvError (after (handleCSVUpload (Some text)) initialState) = None
  /\ formData (after (handleCSVUpload (Some text)) initialState) = initialFormData.
Proof.
  cbv zeta. split; [|split; vm_compute; reflexivity].
  intros H. apply (H ReadingSpeed "abc"); vm_compute; reflexivity.
Qed.

(** C6, amended.  When an upload passes the two format checks and the data
    row holds, in the column found for a field, a value that converts to
    NaN, the upload is accepted: no error is reported, the field receives
    its default, and the record is stored and analysed.  No upload ever ends
    with the message that names a field. *)
Theorem unparseable_value_gets_default
    (text : string) (st : AppState) (f : Field) (s : string) :
  (2 <= List.length (uploadLines text))%nat ->
  (forall h, In h expectedHeaders -> hasLabel (uploadHeader text) h) ->
  cell text f = Some s ->
  JS.isNaN (JS.Number (Some s)) = true ->
  let st' := after (handleCSVUpload (Some text)) st in
  csvError st' = None
  /\ value f (formData st') = value f initialFormData
  /\ result st' = Some (analyzeData (formData st'))
  /\ forall text0 st0 g,
       csvError (after (handleCSVUpload (Some text0)) st0) <> Some (invalidNumberIn g).
Proof.
  intros Hl Hh Hc Hn st'. subst st'.
  rewrite upload_accepted by (trivial; now apply validFormat_hasLabel).
  cbn [uploaded csvError formData result].
  split; [reflexivity|]. split; [|split; [reflexivity|]].
  - rewrite value_converted. unfold convertedField. rewrite Hc.
    destruct (JS.Number (Some s)); try discriminate Hn. reflexivity.
  - intros text0 st0 g. rewrite after_upload.
    destruct (_ <? _)%nat; [destruct g; discriminate|].
    destruct (negb _); [destruct g; discriminate|].
    discriminate.
Qed.

Lemma unparseable_value_gets_default_witness :
  let text := upload standardHeader "abc,350,30,10,7,70" in
  let st' := after (handleCSVUpload (Some text)) initialState in
  csvError st' = None
  /\ value ReadingSpeed (formData st') = value ReadingSpeed initialFormData
  /\ result st' = Some (analyzeData (formData st'))
  /\ forall text0 st0 g,
       csvError (after (handleCSVUpload (Some text0)) st0) <> Some (invalidNumberIn g).
Proof.
  apply (unparseable_value_gets_default
           (upload standardHeader "abc,350,30,10,7,70") initialState ReadingSpeed "abc").
  - vm_compute. lia.
  - apply validFormat_hasLabel. vm_compute. reflexivity.
  - vm_compute. reflexivity.
  - vm_compute. reflexivity.
Defined.

(** C7.  An upload with fewer than two lines, or whose header lacks one of
    the six labels, ends with a format error, whatever its data row holds;
    and whenever an upload ends with an error, the record and the result
    held before are still there and no new record was stored. *)
Theorem malformed_upload_is_rejected (text : string) (st : AppState) :
  let st' := after (handleCSVUpload (Some text)) st in
  ((List.length (uploadLines text) < 2)%nat -> csvError st' = Some tooFewLines)
  /\ ((2 <= List.length (uploadLines text))%nat ->
      (exists h, In h expectedHeaders /\ ~ hasLabel (uploadHeader text) h) ->
      csvError st' = Some invalidFormat)
  /\ ((List.length (uploadLines text) < 2)%nat
      \/ (exists h, In h expectedHeaders /\ ~ hasLabel (uploadHeader text) h) ->
      exists message, csvError st' = Some message /\ isFormatError message)
  /\ (csvError st' <> None ->
      formData st' = formData st /\ result st' = result st /\ activeTab st' = activeTab st).
Proof.
  intros st'. subst st'. rewrite after_upload.
  destruct (Nat.ltb_spec (List.length (uploadLines text)) 2) as [Hl|Hl].
  - split; [reflexivity|]. split; [lia|]. split.
    + intros _. exists tooFewLines. split; [reflexivity|now left].
    + intros _. cbn. auto.
  - destruct (validFormat text) eqn:Hv; cbn [negb].
    + split; [lia|]. split; [|split].
      * intros _ Hm. apply validFormat_false in Hm. congruence.
      * intros [Hm|Hm]; [lia|]. apply validFormat_false in Hm. congruence.
      * intros H. now contradiction H.
    + split; [lia|]. split; [reflexivity|]. split.
      * intros _. exists invalidFormat. split; [reflexivity|now right].
      * intros _. cbn. auto.
Qed.

Lemma malformed_upload_is_rejected_witness :
  let text := upload "reading speed,fixation duration,phoneme errors,spelling errors,comprehension score"
                     "60,350,10,7,70" in
  let st' := after (handleCSVUpload (Some text)) initialState in
  csvError st' = Some invalidFormat
  /\ (exists message, csvError st' = Some message /\ isFormatError message)
  /\ formData st' = formData initialState /\ result st' = result initialState
  /\ activeTab st' = activeTab initialState
  /\ csvError (after (handleCSVUpload (Some standardHeader)) initialState) = Some tooFewLines.
Proof.
  cbv zeta.
  pose proof (malformed_upload_is_rejected
    (upload "reading speed,fixation duration,phoneme errors,spelling errors,comprehension score"
            "60,350,10,7,70") initialState) as [_ [H2 [H3 H4]]].
  pose proof (malformed_upload_is_rejected standardHeader initialState) as [H1 _].
  assert (Hm : exists h, In h expectedHeaders /\
     ~ hasLabel (uploadHeader (upload
         "reading speed,fixation duration,phoneme errors,spelling errors,comprehension score"
         "60,350,10,7,70")) h).
  { exists "saccade length". split; [vm_compute; auto|].
    intros Hl. apply hasLabel_existsb in Hl. vm_compute in Hl. discriminate Hl. }
  split; [apply H2; [vm_compute; lia|exact Hm]|].
  split; [apply H3; right; exact Hm|].
  rewrite <- !and_assoc. split.
  - rewrite !and_assoc. apply H4. rewrite H2; [discriminate|vm_compute; lia|exact Hm].
  - apply H1. vm_compute. lia.
Defined.

(** C10.  When the header holds every label up to surrounding white space
    but the label of a field only with white space around it, the upload is
    accepted without an error, the lookup of the column answers -1, and the
    field receives its default, whatever the data row holds. *)
Theorem padded_label_column_gets_default (text : string) (st : AppState) (f : Field) :
  (2 <= List.length (uploadLines text))%nat ->
  (forall h, In h expectedHeaders -> hasLabel (uploadHeader text) h) ->
  ~ In (label f) (uploadHeader text) ->
  let st' := after (handleCSVUpload (Some text)) st in
  csvError st' = None
  /\ JS.indexOf (label f) (uploadHeader text) = -1
  /\ value f (formData st') = value f initialFormData
  /\ result st' = Some (analyzeData (formData st')).
Proof.
  intros Hl Hh Hn st'. subst st'.
  rewrite upload_accepted by (trivial; now apply validFormat_hasLabel).
  cbn [uploaded csvError formData result].
  split; [reflexivity|]. split; [|split; [|reflexivity]].
  - now apply indexOf_from_absent.
  - rewrite value_converted. unfold convertedField.
    rewrite cell_absent by exact Hn. reflexivity.
Qed.

Lemma padded_label_column_gets_default_witness :
  let text := upload "fixation duration, reading speed,saccade length,phoneme errors,spelling errors,comprehension score"
                     "350,40,30,10,7,70" in
  let st' := after (handleCSVUpload (Some text)) initialState in
  csvError st' = None
  /\ JS.indexOf "reading speed" (uploadHeader text) = -1
  /\ readingSpeed (formData st') = JS.of_Z 60
  /\ result st' = Some (analyzeData (formData st')).
Proof.
  apply (padded_label_column_gets_default
    (upload "fixation duration, reading speed,saccade length,phoneme errors,spelling errors,comprehension score"
            "350,40,30,10,7,70") initialState ReadingSpeed).
  - vm_compute. lia.
  - apply validFormat_hasLabel. vm_compute. reflexivity.
  - apply not_In_existsb. vm_compute. reflexivity.
Defined.

(** The header is split from the trimmed text: white space in front of the
    first label of the file is gone before the header is looked at, so that
    column is found and its value used. *)
Example leading_space_of_the_text_is_trimmed :
  let text := upload (String " " standardHeader) "40,350,30,10,7,70" in
  In "reading speed" (uploadHeader text)
  /\ readingSpeed (formData (after (handleCSVUpload (Some text)) initialState)) = JS.of_Z 40.
Proof. vm_compute. split; [now left|reflexivity]. Qed.

(** A file with CR LF line ends: the last label of the header keeps the CR,
    passes the trimmed check, is not found by the lookup, and the
    comprehension score 90 of the data row is replaced by the default 70. *)
Example crlf_upload_defaults_last_column :
  let text := upload (standardHeader ++ String CR "") "60,350,30,10,7,90" in
  csvError (after (handleCSVUpload (Some text)) initialState) = None
  /\ cell text ComprehensionScore = None
  /\ comprehensionScore (formData (after (handleCSVUpload (Some text)) initialState))
     = JS.of_Z 70.
Proof. vm_compute. repeat split. Qed.

(* ================================================================== *)
(** ** Further properties of the scorer *)
(* ================================================================== *)

Lemma SFcompare_trans (a b c : spec_float) (x y : comparison) :
  SFcompare a b = Some x -> SFcompare b c = Some y ->
  x <> Gt -> y <> Gt ->
  exists z, SFcompare a c = Some z /\ z <> Gt /\ (x = Lt \/ y = Lt -> z = Lt).
Proof.
  destruct a as [sa|sa| |sa ma ea], b as [sb|sb| |sb mb eb], c as [sc|sc| |sc mc ec];
    cbn [SFcompare]; try discriminate;
    try destruct sa; try destruct sb; try destruct sc;
    intros Hx Hy; injection Hx as <-; injection Hy as <-; intros Nx Ny;
    try (exfalso; congruence);
    try (eexists; split; [reflexivity|split; [discriminate|intros [?|?]; congruence]]).
  all: rewrite ?Pos.compare_cont_spec in *; cbn [Pos.switch_Eq] in *.
  all: destruct (Z.compare_spec ea eb), (Z.compare_spec eb ec), (Z.compare_spec ea ec);
       try lia; subst; try (exfalso; congruence);
       try (eexists; split; [reflexivity|split; [discriminate|intros [?|?]; congruence]]).
  all: destruct (Pos.compare_spec ma mb), (Pos.compare_spec mb mc), (Pos.compare_spec ma mc);
       try lia; subst; cbn in *; try (exfalso; congruence);
       try (eexists; split; [reflexivity|split; [discriminate|intros [?|?]; congruence]]).
Qed.

Lemma le_cases (a b : number) :
  JS.le a b = true <-> exists x, SFcompare a b = Some x /\ x <> Gt.
Proof.
  unfold JS.le, SFleb. destruct (SFcompare a b) as [[| |]|]; split; intros H;
    try discriminate; try reflexivity;
    try (eexists; split; [reflexivity|discriminate]);
    destruct H as [x [E N]]; congruence.
Qed.

Lemma lt_cases (a b : number) : JS.lt a b = true <-> SFcompare a b = Some Lt.
Proof.
  unfold JS.lt, SFltb. destruct (SFcompare a b) as [[| |]|]; split; intros H;
    try discriminate; try reflexivity.
Qed.

Lemma le_trans (a b c : number) : JS.le a b = true -> JS.le b c = true -> JS.le a c = true.
Proof.
  rewrite !le_cases. intros [x [Hx Nx]] [y [Hy Ny]].
  destruct (SFcompare_trans a b c x y Hx Hy Nx Ny) as [z [Hz [Nz _]]]. now exists z.
Qed.

Lemma le_lt_trans (a b c : number) : JS.le a b = true -> JS.lt b c = true -> JS.lt a c = true.
Proof.
  rewrite le_cases, !lt_cases. intros [x [Hx Nx]] Hy.
  destruct (SFcompare_trans a b c x Lt Hx Hy Nx ltac:(discriminate)) as [z [Hz [_ L]]].
  rewrite Hz, L; auto.
Qed.

Lemma lt_le_trans (a b c : number) : JS.lt a b = true -> JS.le b c = true -> JS.lt a c = true.
Proof.
  rewrite le_cases, !lt_cases. intros Hx [y [Hy Ny]].
  destruct (SFcompare_trans a b c Lt y Hx Hy ltac:(discriminate) Ny) as [z [Hz [_ L]]].
  rewrite Hz, L; auto.
Qed.

Lemma gt_le_trans (a b t : number) : JS.gt a t = true -> JS.le a b = true -> JS.gt b t = true.
Proof. unfold JS.gt. apply lt_le_trans. Qed.

(** A field's score never falls when its measurement becomes riskier. *)
Lemma score_monotone (f : Field) (v v' : number) :
  match direction (table f) with
  | LowValueIsRisk => JS.le v' v = true
  | HighValueIsRisk => JS.le v v' = true
  end ->
  JS.le (score (position f) v) (score (position f) v') = true.
Proof.
  destruct f; cbn [table direction position score thresholds low high
    Thresholds.readingSpeed Thresholds.fixationDuration Thresholds.saccadeLength
    Thresholds.phonemeErrors Thresholds.spellingErrors Thresholds.comprehensionScore];
    intros H.
  all: repeat match goal with
       | |- context [JS.lt ?a ?b] =>
           let E := fresh "E" in destruct (JS.lt a b) eqn:E
       | |- context [JS.gt ?a ?b] =>
           let E := fresh "E" in destruct (JS.gt a b) eqn:E
       end; try (vm_compute; reflexivity).
  all: exfalso;
       match goal with
       | E : JS.lt ?a ?t = true, L : JS.le ?b ?a = true, E' : JS.lt ?b ?t = false |- _ =>
           rewrite (le_lt_trans b a t L E) in E'; discriminate E'
       | E : JS.gt ?a ?t = true, L : JS.le ?a ?b = true, E' : JS.gt ?b ?t = false |- _ =>
           rewrite (gt_le_trans a b t E L) in E'; discriminate E'
       end.
Qed.


Lemma ge_le (a b : number) : JS.ge a b = JS.le b a.
Proof. reflexivity. Qed.

Lemma riskTable_spec : riskTable = tabulate 6 normalizedScoreOf.
Proof. vm_compute. reflexivity. Qed.

Lemma forallEntries_tabulate (n : nat) :
  forall (P : list number -> number -> bool) (f : list number -> number),
    forallEntries P (tabulate n f) = true ->
    forall ss, List.length ss = n -> Forall isScore ss -> P ss (f ss) = true.
Proof.
  induction n as [|n IH]; intros P f H ss Hl Hs.
  - destruct ss; [exact H|discriminate Hl].
  - destruct ss as [|s ss]; [discriminate Hl|]. injection Hl as Hl.
    inversion_clear Hs as [|? ? Hs0 Hs1].
    cbn [tabulate forallEntries] in H.
    apply andb_prop in H as [H H2]. apply andb_prop in H as [H0 H1].
    destruct Hs0 as [->|[->| ->]].
    + exact (IH _ _ H0 ss Hl Hs1).
    + exact (IH _ _ H1 ss Hl Hs1).
    + exact (IH _ _ H2 ss Hl Hs1).
Qed.

Lemma pointwiseLe_tabulate (n : nat) :
  forall f g : list number -> number,
    pointwiseLe (tabulate n f) (tabulate n g) = true ->
    forall ss, List.length ss = n -> Forall isScore ss -> JS.le (f ss) (g ss) = true.
Proof.
  induction n as [|n IH]; intros f g H ss Hl Hs.
  - destruct ss; [exact H|discriminate Hl].
  - destruct ss as [|s ss]; [discriminate Hl|]. injection Hl as Hl.
    inversion_clear Hs as [|? ? Hs0 Hs1].
    cbn [tabulate pointwiseLe] in H.
    apply andb_prop in H as [H H2]. apply andb_prop in H as [H0 H1].
    destruct Hs0 as [->|[->| ->]].
    + exact (IH _ _ H0 ss Hl Hs1).
    + exact (IH _ _ H1 ss Hl Hs1).
    + exact (IH _ _ H2 ss Hl Hs1).
Qed.

(** In a growing table, a tuple with scores at least as high has an entry
    at least as high. *)
Lemma growing_tabulate (n : nat) :
  forall f : list number -> number,
    growing (tabulate n f) = true ->
    forall ss ss', List.length ss = n -> Forall isScore ss -> Forall isScore ss' ->
      Forall2 (fun s s' => JS.le s s' = true) ss ss' ->
      JS.le (f ss) (f ss') = true.
Proof.
  induction n as [|n IH]; intros f H ss ss' Hl Hs Hs' Hle.
  - destruct ss; [|discriminate Hl]. inversion Hle; subst. exact H.
  - destruct ss as [|s t]; [discriminate Hl|]. injection Hl as Hl.
    inversion Hle as [|? s' ? t' Hss Htt]; subst.
    inversion_clear Hs as [|? ? Hs0 Hs1]. inversion_clear Hs' as [|? ? Hs0' Hs1'].
    cbn [tabulate growing] in H.
    apply andb_prop in H as [H G2]. apply andb_prop in H as [H G1].
    apply andb_prop in H as [H G0]. apply andb_prop in H as [L01 L12].
    pose proof (pointwiseLe_tabulate _ _ _ L01 t eq_refl Hs1) as S01.
    pose proof (pointwiseLe_tabulate _ _ _ L12 t eq_refl Hs1) as S12.
    pose proof (IH _ G0 t t' eq_refl Hs1 Hs1' Htt) as M0.
    pose proof (IH _ G1 t t' eq_refl Hs1 Hs1' Htt) as M1.
    pose proof (IH _ G2 t t' eq_refl Hs1 Hs1' Htt) as M2.
    cbv beta in *.
    destruct Hs0 as [->|[->| ->]], Hs0' as [->|[->| ->]];
      try (vm_compute in Hss; discriminate Hss); eauto using le_trans.
Qed.

Lemma scoresOf_scores (d : FormDataType) : Forall isScore (scoresOf d).
Proof.
  unfold scoresOf. cbn [map fields].
  repeat (apply Forall_cons; [apply score_cases|]). apply Forall_nil.
Qed.

Lemma riskTable_growing : growing (tabulate 6 normalizedScoreOf) = true.
Proof. rewrite <- riskTable_spec. vm_compute. reflexivity. Qed.

(** A property checked on every entry of the table holds of the scores and
    the risk score of every record. *)
Lemma scores_enum (P : list number -> number -> bool) (d : FormDataType) :
  forallEntries P riskTable = true ->
  P (scoresOf d) (riskScore (analyzeData d)) = true.
Proof.
  intros H. rewrite riskTable_spec in H. rewrite riskScore_normalizedScoreOf.
  apply (forallEntries_tabulate 6 P normalizedScoreOf H (scoresOf d));
    [reflexivity|apply scoresOf_scores].
Qed.

Lemma forallb_scoresOf (x : number) (d : FormDataType) :
  forallb (same x) (scoresOf d) = true <-> forall f, fieldScore f d = x.
Proof.
  unfold scoresOf. rewrite forallb_forall. split.
  - intros H f. symmetry. apply same_spec. apply H.
    apply (in_map (fun g => fieldScore g d)). destruct f; cbn; auto 7.
  - intros H s Hs. apply in_map_iff in Hs as [f [<- _]]. apply same_spec. now rewrite H.
Qed.

(** X1.  A field's score never falls when its measurement becomes riskier:
    lower for reading speed, saccade length and comprehension score, higher
    for fixation duration, phoneme errors and spelling errors. *)
Theorem riskier_measurement_scores_no_lower (f : Field) (d d' : FormDataType) :
  riskierIn f d d' ->
  JS.le (fieldScore f d) (fieldScore f d') = true.
Proof. intros H. unfold fieldScore. apply score_monotone. exact H. Qed.

Lemma riskier_measurement_scores_no_lower_witness :
  JS.le (fieldScore PhonemeErrors initialFormData) (fieldScore PhonemeErrors extremeRecord) = true.
Proof.
  apply (riskier_measurement_scores_no_lower PhonemeErrors initialFormData extremeRecord).
  vm_compute. reflexivity.
Defined.

(** X2.  A record that is at least as risky in every measurement has at
    least the risk score, and a prediction of 1 stays 1: the rounding of
    the weighted sum never turns a worse record into a better score. *)
Theorem riskier_record_scores_no_lower (d d' : FormDataType) :
  (forall f, riskierIn f d d') ->
  JS.le (riskScore (analyzeData d)) (riskScore (analyzeData d')) = true
  /\ (prediction (analyzeData d) = JS.of_Z 1 -> prediction (analyzeData d') = JS.of_Z 1).
Proof.
  intros H.
  assert (L : JS.le (riskScore (analyzeData d)) (riskScore (analyzeData d')) = true).
  { rewrite !riskScore_normalizedScoreOf.
    apply (growing_tabulate 6 normalizedScoreOf riskTable_growing (scoresOf d) (scoresOf d'));
      [reflexivity|apply scoresOf_scores|apply scoresOf_scores|].
    unfold scoresOf. cbn [map fields].
    repeat (apply Forall2_cons; [unfold fieldScore; apply score_monotone; apply H|]).
    apply Forall2_nil. }
  split; [exact L|].
  rewrite !prediction_by_riskScore, !ge_le.
  destruct (JS.le (JS.of_Z 5) (riskScore (analyzeData d))) eqn:E;
    [|intros C; vm_compute in C; discriminate C].
  intros _. now rewrite (le_trans _ _ _ E L).
Qed.

Lemma riskier_record_scores_no_lower_witness :
  JS.le (riskScore (analyzeData initialFormData)) (riskScore (analyzeData extremeRecord)) = true
  /\ (prediction (analyzeData initialFormData) = JS.of_Z 1 ->
      prediction (analyzeData extremeRecord) = JS.of_Z 1).
Proof.
  apply (riskier_record_scores_no_lower initialFormData extremeRecord).
  intros f. destruct f; vm_compute; reflexivity.
Defined.

(** X3.  A measurement that is not a number counts as no risk: its score is
    0 and its level Low, for every field. *)
Theorem nan_measurement_counts_as_low (f : Field) (d : FormDataType) :
  JS.isNaN (value f d) = true ->
  fieldScore f d = JS.of_Z 0 /\ riskLevel f (details (analyzeData d)) = "Low".
Proof.
  intros H. unfold fieldScore.
  assert (E : value f d = JS.NaN) by (destruct (value f d); try discriminate H; reflexivity).
  destruct f; unfold analyzeData;
    cbn [details riskLevel readingSpeedRisk fixationRisk saccadeRisk phonemeRisk
         spellingRisk comprehensionRisk position value features at_index nth];
    cbn [value] in E; rewrite E; split; vm_compute; reflexivity.
Qed.

Lemma nan_measurement_counts_as_low_witness :
  let d := {| readingSpeed := JS.NaN; fixationDuration := JS.of_Z 350;
              saccadeLength := JS.of_Z 30; phonemeErrors := JS.of_Z 10;
              spellingErrors := JS.of_Z 7; comprehensionScore := JS.of_Z 70 |} in
  fieldScore ReadingSpeed d = JS.of_Z 0
  /\ riskLevel ReadingSpeed (details (analyzeData d)) = "Low".
Proof.
  apply (nan_measurement_counts_as_low ReadingSpeed). reflexivity.
Defined.

(** X4.  A risk is never predicted from fewer than three fields above Low:
    the risk score then stays below 5.  It is always predicted when all six
    fields are above Low. *)
Theorem prediction_needs_three_fields (d : FormDataType) :
  ((aboveLow (scoresOf d) < 3)%nat ->
     JS.lt (riskScore (analyzeData d)) (JS.of_Z 5) = true
     /\ prediction (analyzeData d) = JS.of_Z 0)
  /\ (aboveLow (scoresOf d) = 6%nat -> prediction (analyzeData d) = JS.of_Z 1).
Proof.
  pose proof (scores_enum (fun ss r =>
      implb (aboveLow ss <? 3)%nat (JS.lt r (JS.of_Z 5) && negb (JS.ge r (JS.of_Z 5)))
      && implb (aboveLow ss =? 6)%nat (JS.ge r (JS.of_Z 5))) d
    ltac:(vm_compute; reflexivity)) as H.
  cbv beta in H. apply andb_prop in H as [H3 H6].
  rewrite prediction_by_riskScore. split.
  - intros Hlt. apply Nat.ltb_lt in Hlt. rewrite Hlt in H3. cbn [implb] in H3.
    apply andb_prop in H3 as [Hr Hp]. apply negb_true_iff in Hp. now rewrite Hp.
  - intros Heq. apply Nat.eqb_eq in Heq. rewrite Heq in H6. cbn [implb] in H6.
    now rewrite H6.
Qed.

Lemma prediction_needs_three_fields_witness :
  prediction (analyzeData initialFormData) = JS.of_Z 1.
Proof.
  apply (prediction_needs_three_fields initialFormData). vm_compute. reflexivity.
Defined.

(** X5.  The risk score is 0 exactly when all six scores are 0 and 10
    exactly when all six are 2; the confidence is 0 exactly in these two
    cases. *)
Theorem extreme_scores_iff_uniform_levels (d : FormDataType) :
  (riskScore (analyzeData d) = JS.of_Z 0 <-> forall f, fieldScore f d = JS.of_Z 0)
  /\ (riskScore (analyzeData d) = JS.of_Z 10 <-> forall f, fieldScore f d = JS.of_Z 2)
  /\ (confidence (analyzeData d) = JS.of_Z 0 <->
      (forall f, fieldScore f d = JS.of_Z 0) \/ (forall f, fieldScore f d = JS.of_Z 2)).
Proof.
  pose proof (scores_enum (fun ss r =>
      Bool.eqb (same r (JS.of_Z 0)) (forallb (same (JS.of_Z 0)) ss)
      && Bool.eqb (same r (JS.of_Z 10)) (forallb (same (JS.of_Z 2)) ss)
      && Bool.eqb (same (confidenceOf r) (JS.of_Z 0))
                  (forallb (same (JS.of_Z 0)) ss || forallb (same (JS.of_Z 2)) ss)) d
    ltac:(vm_compute; reflexivity)) as H.
  cbv beta in H. apply andb_prop in H as [H Hc]. apply andb_prop in H as [H0 H10].
  apply Bool.eqb_prop in H0, H10, Hc.
  rewrite confidence_by_riskScore.
  rewrite <- !forallb_scoresOf, <- !same_spec.
  split; [now rewrite H0|]. split; [now rewrite H10|].
  rewrite Hc. rewrite orb_true_iff.
  split; (intros [A|A]; [left|right]); first [exact A|now rewrite same_spec|now rewrite <- same_spec].
Qed.

Lemma extreme_scores_iff_uniform_levels_witness :
  riskScore (analyzeData extremeRecord) = JS.of_Z 10.
Proof.
  apply (extreme_scores_iff_uniform_levels extremeRecord).
  intros f. destruct f; vm_compute; reflexivity.
Defined.

(* ================================================================== *)
(** ** Further properties of the upload path *)
(* ================================================================== *)

Lemma trimStart_app (h x : string) :
  blank h = false -> JS.trimStart (h ++ x) = JS.trimStart h ++ x.
Proof.
  induction h as [|c h IH]; [discriminate|]. cbn [blank append JS.trimStart].
  destruct (JS.isWhiteSpace c); [exact IH|reflexivity].
Qed.

Lemma trimStart_not_blank (h : string) : blank h = false -> blank (JS.trimStart h) = false.
Proof.
  induction h as [|c h IH]; [discriminate|]. cbn [blank JS.trimStart].
  destruct (JS.isWhiteSpace c) eqn:E; [exact IH|]. intros _. cbn [blank]. now rewrite E.
Qed.

Lemma trimEnd_blank (x : string) : blank x = true <-> JS.trimEnd x = "".
Proof.
  induction x as [|c x IH]; [now split|]. cbn [blank JS.trimEnd].
  destruct (JS.trimEnd x) eqn:E.
  - destruct (JS.isWhiteSpace c); cbn [andb].
    + split; [reflexivity|intros _; now apply IH].
    + split; discriminate.
  - split; [|discriminate]. intros H. apply andb_prop in H as [_ H].
    apply IH in H. discriminate H.
Qed.

Lemma trimEnd_app_blank (h x : string) :
  blank x = true -> JS.trimEnd (h ++ x) = JS.trimEnd h.
Proof.
  intros Hx. induction h as [|c h IH]; [now apply trimEnd_blank|].
  cbn [append JS.trimEnd]. now rewrite IH.
Qed.

Lemma trimEnd_cons (c : ascii) (x : string) :
  blank x = false -> JS.trimEnd (String c x) = String c (JS.trimEnd x).
Proof.
  intros Hx. cbn [JS.trimEnd]. destruct (JS.trimEnd x) eqn:E; [|reflexivity].
  apply trimEnd_blank in E. congruence.
Qed.

Lemma blank_app (h x : string) : blank (h ++ x) = blank h && blank x.
Proof.
  induction h as [|c h IH]; [reflexivity|]. cbn [append blank]. now rewrite IH, andb_assoc.
Qed.

Lemma trimEnd_app (h x : string) :
  blank x = false -> JS.trimEnd (h ++ x) = h ++ JS.trimEnd x.
Proof.
  intros Hx. induction h as [|c h IH]; [reflexivity|]. cbn [append].
  rewrite trimEnd_cons, IH; [reflexivity|]. rewrite blank_app, Hx. apply andb_false_r.
Qed.

Lemma split_without (sep : ascii) (s : string) : without sep s = true -> JS.split sep s = [s].
Proof.
  induction s as [|c s IH]; [reflexivity|]. cbn [without JS.split].
  destruct (Ascii.eqb c sep); [discriminate|]. cbn [negb andb]. intros H. now rewrite IH.
Qed.

Lemma split_app (sep : ascii) (h x : string) :
  without sep h = true -> JS.split sep (h ++ String sep x) = h :: JS.split sep x.
Proof.
  induction h as [|c h IH]; cbn [without append JS.split].
  - now rewrite Ascii.eqb_refl.
  - destruct (Ascii.eqb c sep); [discriminate|]. cbn [negb andb]. intros H. now rewrite IH.
Qed.

Lemma without_trimStart (sep : ascii) (s : string) :
  without sep s = true -> without sep (JS.trimStart s) = true.
Proof.
  induction s as [|c s IH]; [reflexivity|]. cbn [without JS.trimStart]. intros H.
  destruct (JS.isWhiteSpace c); [|exact H]. apply andb_prop in H as [_ H]. now apply IH.
Qed.

Lemma without_trimEnd (sep : ascii) (s : string) :
  without sep s = true -> without sep (JS.trimEnd s) = true.
Proof.
  induction s as [|c s IH]; [reflexivity|]. cbn [without JS.trimEnd]. intros H.
  apply andb_prop in H as [Hc H]. specialize (IH H).
  destruct (JS.trimEnd s); [destruct (JS.isWhiteSpace c)|]; cbn [without] in *;
    rewrite ?Hc; auto.
Qed.

(** The lines of an upload whose header line and data line both hold more
    than white space. *)
Lemma uploadLines_upload (h d : string) :
  without JS.LF h = true -> blank h = false -> blank d = false ->
  uploadLines (upload h d) = JS.trimStart h :: JS.split JS.LF (JS.trimEnd d).
Proof.
  intros Hl Hh Hd. unfold uploadLines, upload, JS.trim.
  rewrite trimStart_app by exact Hh.
  rewrite trimEnd_app by (cbn [blank]; rewrite Hd; apply andb_false_r).
  rewrite trimEnd_cons by exact Hd.
  apply split_app. now apply without_trimStart.
Qed.

Lemma trimStart_blank (s : string) : blank s = true -> JS.trimStart s = "".
Proof.
  induction s as [|c s IH]; [reflexivity|]. cbn [blank JS.trimStart].
  destruct (JS.isWhiteSpace c); [exact IH|discriminate].
Qed.

(** The lines of an upload whose data line is blank. *)
Lemma uploadLines_blank_data (h d : string) :
  without JS.LF h = true -> blank d = true ->
  uploadLines (upload h d) = [JS.trim h].
Proof.
  intros Hl Hd. unfold uploadLines, upload, JS.trim.
  destruct (blank h) eqn:Hh.
  - rewrite !trimStart_blank; [reflexivity|exact Hh|].
    rewrite blank_app, Hh. cbn [blank]. now rewrite Hd.
  - rewrite trimStart_app by exact Hh.
    rewrite trimEnd_app_blank by (cbn [blank]; now rewrite Hd).
    apply split_without. apply without_trimEnd. now apply without_trimStart.
Qed.

(** *** Lower case *)

Lemma lower_unit_facts (c : ascii) :
  JS.isWhiteSpace (JS.toLowerCaseUnit c) = JS.isWhiteSpace c
  /\ Ascii.eqb (JS.toLowerCaseUnit c) JS.LF = Ascii.eqb c JS.LF
  /\ JS.toLowerCaseUnit (JS.toLowerCaseUnit c) = JS.toLowerCaseUnit c
  /\ (JS.isWhiteSpace c = true -> JS.toLowerCaseUnit c = c).
Proof.
  destruct c as [[] [] [] [] [] [] [] []]; vm_compute; repeat split; discriminate.
Qed.

Lemma toLowerCase_app (a b : string) :
  JS.toLowerCase (a ++ b) = JS.toLowerCase a ++ JS.toLowerCase b.
Proof. induction a as [|c a IH]; [reflexivity|]. cbn [append JS.toLowerCase]. now rewrite IH. Qed.

Lemma toLowerCase_idem (s : string) : JS.toLowerCase (JS.toLowerCase s) = JS.toLowerCase s.
Proof.
  induction s as [|c s IH]; [reflexivity|]. cbn [JS.toLowerCase].
  rewrite IH. now rewrite (proj1 (proj2 (proj2 (lower_unit_facts c)))).
Qed.

Lemma blank_lower (s : string) : blank (JS.toLowerCase s) = blank s.
Proof.
  induction s as [|c s IH]; [reflexivity|]. cbn [JS.toLowerCase blank].
  now rewrite IH, (proj1 (lower_unit_facts c)).
Qed.

Lemma lower_blank (s : string) : blank s = true -> JS.toLowerCase s = s.
Proof.
  induction s as [|c s IH]; [reflexivity|]. cbn [JS.toLowerCase blank]. intros H.
  apply andb_prop in H as [Hc H].
  now rewrite IH, (proj2 (proj2 (proj2 (lower_unit_facts c))) Hc).
Qed.

Lemma without_LF_lower (s : string) : without JS.LF (JS.toLowerCase s) = without JS.LF s.
Proof.
  induction s as [|c s IH]; [reflexivity|]. cbn [JS.toLowerCase without].
  now rewrite IH, (proj1 (proj2 (lower_unit_facts c))).
Qed.

Lemma trimStart_lower (s : string) :
  JS.trimStart (JS.toLowerCase s) = JS.toLowerCase (JS.trimStart s).
Proof.
  induction s as [|c s IH]; [reflexivity|]. cbn [JS.toLowerCase JS.trimStart].
  rewrite (proj1 (lower_unit_facts c)). destruct (JS.isWhiteSpace c); [exact IH|reflexivity].
Qed.

Lemma trimEnd_lower (s : string) :
  JS.trimEnd (JS.toLowerCase s) = JS.toLowerCase (JS.trimEnd s).
Proof.
  induction s as [|c s IH]; [reflexivity|]. cbn [JS.toLowerCase JS.trimEnd].
  rewrite IH, (proj1 (lower_unit_facts c)).
  destruct (JS.trimEnd s); [destruct (JS.isWhiteSpace c)|]; reflexivity.
Qed.

(** The outcome of an upload is decided by the length test, the header and
    the numbers the cells convert to. *)
Lemma after_upload_ext (text text' : string) (st : AppState) :
  (List.length (uploadLines text) <? 2)%nat = (List.length (uploadLines text') <? 2)%nat ->
  uploadHeader text = uploadHeader text' ->
  (forall f, JS.Number (cell text f) = JS.Number (cell text' f)) ->
  after (handleCSVUpload (Some text)) st = after (handleCSVUpload (Some text')) st.
Proof.
  intros Hl Hh Hc. rewrite !after_upload, Hl.
  assert (V : validFormat text = validFormat text') by (unfold validFormat; now rewrite Hh).
  assert (C : converted text = converted text')
    by (unfold converted, convertedField; now rewrite !Hc).
  unfold uploaded. now rewrite V, C.
Qed.

Lemma after_upload_lines (text text' : string) (st : AppState) :
  List.length (uploadLines text) = List.length (uploadLines text') ->
  JS.toLowerCase (nth 0 (uploadLines text) "") = JS.toLowerCase (nth 0 (uploadLines text') "") ->
  nth 1 (uploadLines text) "" = nth 1 (uploadLines text') "" ->
  after (handleCSVUpload (Some text)) st = after (handleCSVUpload (Some text')) st.
Proof.
  intros Hl H0 H1.
  assert (Hh : uploadHeader text = uploadHeader text') by (unfold uploadHeader; now rewrite H0).
  apply after_upload_ext; [now rewrite Hl|exact Hh|].
  intros f. unfold cell, uploadData. now rewrite Hh, H1.
Qed.

Lemma header_lower (h d : string) (st : AppState) :
  without JS.LF h = true ->
  after (handleCSVUpload (Some (upload (JS.toLowerCase h) d))) st
  = after (handleCSVUpload (Some (upload h d))) st.
Proof.
  intros Hl.
  destruct (blank h) eqn:Hh; [now rewrite lower_blank|].
  destruct (blank d) eqn:Hd.
  - apply after_upload_lines;
      rewrite !uploadLines_blank_data by (rewrite ?without_LF_lower; assumption);
      try reflexivity.
    cbn [nth]. unfold JS.trim. now rewrite trimStart_lower, trimEnd_lower, toLowerCase_idem.
  - apply after_upload_lines;
      rewrite !uploadLines_upload by (rewrite ?without_LF_lower, ?blank_lower; assumption);
      try reflexivity.
    cbn [nth]. now rewrite trimStart_lower, toLowerCase_idem.
Qed.

(** X11.  The header line is read without regard to case: two uploads whose
    header lines differ only in the case of their letters, with the same
    data, leave the same state. *)
Theorem header_case_is_ignored (h h' d : string) (st : AppState) :
  without JS.LF h = true -> without JS.LF h' = true ->
  JS.toLowerCase h = JS.toLowerCase h' ->
  after (handleCSVUpload (Some (upload h d))) st
  = after (handleCSVUpload (Some (upload h' d))) st.
Proof.
  intros Hh Hh' E.
  rewrite <- (header_lower h d st Hh), <- (header_lower h' d st Hh'). now rewrite E.
Qed.

Lemma header_case_is_ignored_witness :
  after (handleCSVUpload (Some (upload
    "Reading Speed,Fixation Duration,Saccade Length,Phoneme Errors,Spelling Errors,Comprehension Score"
    "40,350,30,10,7,70"))) initialState
  = after (handleCSVUpload (Some (upload standardHeader "40,350,30,10,7,70"))) initialState.
Proof.
  apply (header_case_is_ignored
    "Reading Speed,Fixation Duration,Saccade Length,Phoneme Errors,Spelling Errors,Comprehension Score"
    standardHeader "40,350,30,10,7,70" initialState); vm_compute; reflexivity.
Defined.

(** *** Trailing white space of the data line *)

Lemma trim_comm (x : string) : JS.trimEnd (JS.trimStart x) = JS.trimStart (JS.trimEnd x).
Proof.
  induction x as [|c x IH]; [reflexivity|]. cbn [JS.trimStart JS.trimEnd].
  destruct (JS.isWhiteSpace c) eqn:Ec.
  - destruct (JS.trimEnd x) eqn:Ex.
    + apply trimEnd_blank in Ex. rewrite (trimStart_blank x Ex). reflexivity.
    + rewrite IH. cbn [JS.trimStart]. now rewrite Ec.
  - cbn [JS.trimEnd]. destruct (JS.trimEnd x); cbn [JS.trimStart]; rewrite Ec; reflexivity.
Qed.


Lemma Number_sameUpToTrailingSpace (x y : string) :
  sameUpToTrailingSpace x y -> JS.Number (Some x) = JS.Number (Some y).
Proof.
  unfold sameUpToTrailingSpace. intros H. cbn [JS.Number]. unfold JS.StringToNumber, JS.trim.
  now rewrite !trim_comm, H.
Qed.

Lemma blank_without_comma (s : string) : blank s = true -> without "," s = true.
Proof.
  induction s as [|c s IH]; [reflexivity|]. cbn [blank without]. intros H.
  apply andb_prop in H as [Hc H]. rewrite (IH H), andb_true_r.
  destruct (Ascii.eqb c ",") eqn:E; [|reflexivity].
  apply Ascii.eqb_eq in E. subst c. discriminate Hc.
Qed.

Lemma split_trimEnd (d : string) :
  Forall2 sameUpToTrailingSpace (JS.split "," (JS.trimEnd d)) (JS.split "," d).
Proof.
  unfold sameUpToTrailingSpace.
  induction d as [|c d IH]; [repeat constructor|].
  destruct (blank d) eqn:Bd.
  - (* nothing but white space follows [c] *)
    pose proof (proj1 (trimEnd_blank d) Bd) as Ed.
    pose proof (split_without "," d (blank_without_comma d Bd)) as Sd.
    cbn [JS.trimEnd JS.split]. rewrite Ed, Sd.
    destruct (JS.isWhiteSpace c) eqn:Ec.
    + assert (Ascii.eqb c "," = false) as ->
        by (destruct (Ascii.eqb c ",") eqn:E;
            [apply Ascii.eqb_eq in E; subst c; discriminate Ec|reflexivity]).
      repeat constructor. cbn [JS.trimEnd]. now rewrite Ed, Ec.
    + cbn [JS.split]. destruct (Ascii.eqb c ","); repeat constructor; cbn [JS.trimEnd];
        rewrite ?Ed, ?Ec; reflexivity.
  - rewrite trimEnd_cons by exact Bd. cbn [JS.split].
    destruct (Ascii.eqb c ","); [constructor; [reflexivity|exact IH]|].
    destruct IH as [|p q ps qs Hpq Hrest]; [repeat constructor|].
    constructor; [|exact Hrest]. cbn [JS.trimEnd]. now rewrite Hpq.
Qed.

Lemma Number_item_Forall2 (l l' : list string) :
  Forall2 sameUpToTrailingSpace l l' ->
  forall i, JS.Number (JS.item l i) = JS.Number (JS.item l' i).
Proof.
  intros H i. unfold JS.item. destruct (i <? 0)%Z; [reflexivity|].
  generalize (Z.to_nat i). clear i.
  induction H as [|x y l l' Hxy _ IH]; intros [|n]; cbn [nth_error]; auto.
  now apply Number_sameUpToTrailingSpace.
Qed.

Lemma length_split (sep : ascii) (s : string) : (1 <= List.length (JS.split sep s))%nat.
Proof.
  induction s as [|c s IH]; cbn [JS.split List.length]; [lia|].
  destruct (Ascii.eqb c sep); cbn [List.length]; [lia|].
  destruct (JS.split sep s); cbn [List.length]; lia.
Qed.

(** X12.  Only the first data row is read: whatever follows it in the file,
    the upload leaves the state it leaves without it. *)
Theorem further_rows_are_ignored (h d more : string) (st : AppState) :
  without JS.LF h = true -> blank h = false ->
  without JS.LF d = true -> blank d = false ->
  after (handleCSVUpload (Some (upload h (d ++ String JS.LF more)))) st
  = after (handleCSVUpload (Some (upload h d))) st.
Proof.
  intros Hh Bh Hd Bd.
  assert (Bd' : blank (d ++ String JS.LF more) = false) by (rewrite blank_app, Bd; reflexivity).
  assert (L2 : uploadLines (upload h d) = [JS.trimStart h; JS.trimEnd d]).
  { rewrite uploadLines_upload by assumption.
    now rewrite split_without by (now apply without_trimEnd). }
  destruct (blank more) eqn:Bm.
  - (* nothing but white space after the data row *)
    assert (L3 : uploadLines (upload h (d ++ String JS.LF more)) = uploadLines (upload h d)).
    { rewrite !uploadLines_upload by assumption.
      rewrite trimEnd_app_blank by (cbn [blank]; now rewrite Bm). reflexivity. }
    apply after_upload_lines; now rewrite L3.
  - assert (L3 : uploadLines (upload h (d ++ String JS.LF more))
                 = JS.trimStart h :: d :: JS.split JS.LF (JS.trimEnd more)).
    { rewrite uploadLines_upload by assumption.
      rewrite trimEnd_app by (cbn [blank]; rewrite Bm; apply andb_false_r).
      rewrite trimEnd_cons by exact Bm. now rewrite split_app. }
    assert (Hhd : uploadHeader (upload h (d ++ String JS.LF more)) = uploadHeader (upload h d))
      by (unfold uploadHeader; now rewrite L2, L3).
    apply after_upload_ext.
    + rewrite L2, L3. cbn [List.length].
      pose proof (length_split JS.LF (JS.trimEnd more)).
      destruct (Nat.ltb_spec (S (S (List.length (JS.split JS.LF (JS.trimEnd more))))) 2); [lia|reflexivity].
    + exact Hhd.
    + intros f. unfold cell. rewrite Hhd. unfold uploadData. rewrite L2, L3. cbn [nth].
      symmetry. apply Number_item_Forall2, split_trimEnd.
Qed.

Lemma further_rows_are_ignored_witness :
  after (handleCSVUpload (Some (upload standardHeader
           ("40,350,30,10,7,70" ++ String JS.LF "abc,1,2,3,4,5")))) initialState
  = after (handleCSVUpload (Some (upload standardHeader "40,350,30,10,7,70"))) initialState.
Proof.
  apply (further_rows_are_ignored standardHeader "40,350,30,10,7,70" "abc,1,2,3,4,5"
           initialState); vm_compute; reflexivity.
Defined.

(** X8.  After an upload that passes the two format checks, a field holds
    the number its cell converts to when that number is neither 0 nor NaN,
    and its default in every other case; so no field of an uploaded record
    is ever 0 or NaN. *)
Theorem accepted_upload_stores_number_or_default
    (text : string) (st : AppState) (f : Field) :
  (2 <= List.length (uploadLines text))%nat ->
  (forall h, In h expectedHeaders -> hasLabel (uploadHeader text) h) ->
  let st' := after (handleCSVUpload (Some text)) st in
  let v := JS.Number (cell text f) in
  (JS.toBoolean v = true -> value f (formData st') = v)
  /\ (JS.toBoolean v = false -> value f (formData st') = value f initialFormData)
  /\ JS.toBoolean (value f (formData st')) = true.
Proof.
  intros Hl Hh st' v. subst st'.
  rewrite upload_accepted by (trivial; now apply validFormat_hasLabel).
  cbn [uploaded formData]. rewrite value_converted. unfold convertedField, JS.or.
  fold v. destruct (JS.toBoolean v) eqn:E.
  - split; [reflexivity|]. split; [discriminate|exact E].
  - split; [discriminate|]. split; [reflexivity|]. destruct f; reflexivity.
Qed.

Lemma accepted_upload_stores_number_or_default_witness :
  let text := upload standardHeader "42.5,350,30,0,,abc" in
  let st' := after (handleCSVUpload (Some text)) initialState in
  let v := JS.Number (cell text ReadingSpeed) in
  (JS.toBoolean v = true -> value ReadingSpeed (formData st') = v)
  /\ (JS.toBoolean v = false -> value ReadingSpeed (formData st') = value ReadingSpeed initialFormData)
  /\ JS.toBoolean (value ReadingSpeed (formData st')) = true.
Proof.
  apply (accepted_upload_stores_number_or_default
           (upload standardHeader "42.5,350,30,0,,abc") initialState ReadingSpeed).
  - vm_compute. lia.
  - apply validFormat_hasLabel. vm_compute. reflexivity.
Defined.

Lemma item_past_the_end (a : list string) (i : Z) :
  Z.of_nat (List.length a) <= i -> JS.item a i = None.
Proof.
  intros H. unfold JS.item. destruct (Z.ltb_spec i 0); [reflexivity|].
  apply nth_error_None. lia.
Qed.

(** X9.  A data row with fewer cells than the header has columns: the
    fields whose column lies past the end of the row receive their
    defaults, and the upload is accepted. *)
Theorem short_row_gets_defaults (text : string) (st : AppState) (f : Field) :
  (2 <= List.length (uploadLines text))%nat ->
  (forall h, In h expectedHeaders -> hasLabel (uploadHeader text) h) ->
  Z.of_nat (List.length (uploadData text)) <= JS.indexOf (label f) (uploadHeader text) ->
  let st' := after (handleCSVUpload (Some text)) st in
  csvError st' = None /\ value f (formData st') = value f initialFormData.
Proof.
  intros Hl Hh Hi st'. subst st'.
  rewrite upload_accepted by (trivial; now apply validFormat_hasLabel).
  cbn [uploaded formData csvError]. split; [reflexivity|].
  rewrite value_converted. unfold convertedField, cell.
  now rewrite item_past_the_end.
Qed.

Lemma short_row_gets_defaults_witness :
  let st' := after (handleCSVUpload (Some (upload standardHeader "40,500"))) initialState in
  csvError st' = None
  /\ value ComprehensionScore (formData st') = value ComprehensionScore initialFormData.
Proof.
  apply (short_row_gets_defaults (upload standardHeader "40,500") initialState ComprehensionScore).
  - vm_compute. lia.
  - apply validFormat_hasLabel. vm_compute. reflexivity.
  - vm_compute. discriminate.
Defined.

(** X10.  The "Validate numbers" pass accepts a record none of whose fields
    is NaN, and rejects any other record with the message that names its
    first NaN field by the label of the field; it changes no state. *)
Theorem validation_pass_names_first_NaN (d : FormDataType) (st : AppState) :
  ((forall f, JS.isNaN (value f d) = false) ->
     validateNumbers (entries d) st = (inr tt, st))
  /\ (forall f, JS.isNaN (value f d) = true ->
        (forall g, (position g < position f)%nat -> JS.isNaN (value g d) = false) ->
        validateNumbers (entries d) st = (inl ("Invalid number in " ++ label f), st)).
Proof.
  rewrite validateNumbers_first_NaN. unfold fields. cbn [find]. split.
  - intros H. now rewrite !H.
  - intros f Hf Hg.
    destruct f; cbn [position] in Hg;
      repeat match goal with
      | |- context [JS.isNaN (value ?g d)] =>
          first [ rewrite (Hg g) by (cbn [position]; lia) | rewrite Hf ]
      end; reflexivity.
Qed.

Lemma validation_pass_names_first_NaN_witness :
  let d := {| readingSpeed := JS.of_Z 60; fixationDuration := JS.NaN;
              saccadeLength := JS.of_Z 30; phonemeErrors := JS.NaN;
              spellingErrors := JS.of_Z 7; comprehensionScore := JS.of_Z 70 |} in
  validateNumbers (entries d) initialState
  = (inl "Invalid number in fixation duration", initialState).
Proof.
  cbv zeta.
  refine (proj2 (validation_pass_names_first_NaN _ initialState) FixationDuration _ _).
  - reflexivity.
  - intros g Hg. destruct g; cbn [position] in Hg; try lia. reflexivity.
Defined.

(** X13.  Uploading the same file twice leaves the state the first upload
    left; and when a file is accepted, the record, the result and the tab
    it leaves do not depend on what was held before. *)
Theorem upload_twice_is_upload_once (text : string) (st : AppState) :
  after (handleCSVUpload (Some text)) (after (handleCSVUpload (Some text)) st)
  = after (handleCSVUpload (Some text)) st
  /\ (csvError (after (handleCSVUpload (Some text)) st) = None ->
      forall st0,
        formData (after (handleCSVUpload (Some text)) st0)
          = formData (after (handleCSVUpload (Some text)) st)
        /\ result (after (handleCSVUpload (Some text)) st0)
          = result (after (handleCSVUpload (Some text)) st)
        /\ activeTab (after (handleCSVUpload (Some text)) st0) = "results"
        /\ csvError (after (handleCSVUpload (Some text)) st0) = None).
Proof.
  split.
  - rewrite (after_upload text (after (handleCSVUpload (Some text)) st)).
    rewrite !after_upload.
    destruct (_ <? _)%nat; [reflexivity|]. destruct (negb _); reflexivity.
  - intros H st0. rewrite !after_upload in *.
    destruct (_ <? _)%nat; [discriminate H|]. destruct (negb _); [discriminate H|].
    repeat split.
Qed.

Lemma upload_twice_is_upload_once_witness :
  let text := upload standardHeader "40,350,30,10,7,70" in
  formData (after (handleCSVUpload (Some text)) (after handleSubmit initialState))
  = formData (after (handleCSVUpload (Some text)) initialState).
Proof.
  cbv zeta.
  apply (upload_twice_is_upload_once (upload standardHeader "40,350,30,10,7,70") initialState).
  vm_compute. reflexivity.
Defined.

(** *** The order of the columns *)

Lemma csvLine_cons (x y : string) (r : list string) :
  csvLine (x :: y :: r) = x ++ String "," (csvLine (y :: r)).
Proof. reflexivity. Qed.

Lemma split_csvLine (xs : list string) :
  xs <> [] -> Forall (fun x => without "," x = true) xs ->
  JS.split "," (csvLine xs) = xs.
Proof.
  induction xs as [|x [|y r] IH]; intros Hne H; [contradiction| |].
  - inversion_clear H. now apply split_without.
  - inversion_clear H as [|? ? Hx Hr]. rewrite csvLine_cons.
    rewrite split_app by exact Hx. now rewrite IH.
Qed.

Lemma lower_unit_comma (c : ascii) :
  Ascii.eqb (JS.toLowerCaseUnit c) "," = Ascii.eqb c ",".
Proof. destruct c as [[] [] [] [] [] [] [] []]; reflexivity. Qed.

Lemma without_comma_lower (s : string) : without "," (JS.toLowerCase s) = without "," s.
Proof.
  induction s as [|c s IH]; [reflexivity|]. cbn [JS.toLowerCase without].
  now rewrite IH, lower_unit_comma.
Qed.

Lemma lower_csvLine (xs : list string) :
  JS.toLowerCase (csvLine xs) = csvLine (map JS.toLowerCase xs).
Proof.
  induction xs as [|x [|y r] IH]; [reflexivity|reflexivity|].
  cbn [map] in *. rewrite !csvLine_cons, toLowerCase_app. cbn [JS.toLowerCase].
  now rewrite IH.
Qed.

Lemma without_app (sep : ascii) (a b : string) :
  without sep (a ++ b) = without sep a && without sep b.
Proof.
  induction a as [|c a IH]; [reflexivity|]. cbn [append without]. now rewrite IH, andb_assoc.
Qed.

Lemma without_LF_csvLine (xs : list string) :
  Forall (fun x => without JS.LF x = true) xs -> without JS.LF (csvLine xs) = true.
Proof.
  induction xs as [|x [|y r] IH]; intros H; [reflexivity| |].
  - now inversion_clear H.
  - inversion_clear H as [|? ? Hx Hr]. rewrite csvLine_cons, without_app, Hx.
    cbn [without]. now rewrite (IH Hr).
Qed.

Lemma trimStart_clean (s : string) :
  blank (substring 0 1 s) = false -> forall t, JS.trimStart (s ++ t) = s ++ t /\ blank (s ++ t) = false.
Proof.
  destruct s as [|c s]; [discriminate|]. cbn [substring blank append JS.trimStart].
  destruct s; cbn [substring blank]; rewrite ?andb_true_r;
    intros -> t; split; reflexivity.
Qed.

Lemma append_empty (s : string) : s ++ "" = s.
Proof. induction s as [|c s IH]; [reflexivity|]. cbn [append]. now rewrite IH. Qed.

Lemma csvLine_starts (x : string) (r : list string) : exists t, csvLine (x :: r) = x ++ t.
Proof.
  destruct r as [|y r]; [exists ""; now rewrite append_empty|].
  eexists. apply csvLine_cons.
Qed.

Lemma blank_csvLine (x y : string) (r : list string) : blank (csvLine (x :: y :: r)) = false.
Proof. rewrite csvLine_cons, blank_app. cbn [blank]. apply andb_false_r. Qed.

Lemma clean_columns (cs : list (string * string)) :
  Forall cleanColumn cs ->
  Forall (fun x => without "," x = true) (map fst cs)
  /\ Forall (fun x => without JS.LF x = true) (map fst cs)
  /\ Forall (fun x => without "," x = true) (map snd cs)
  /\ Forall (fun x => without JS.LF x = true) (map snd cs).
Proof.
  induction 1 as [|col l [H1 [H2 [_ [H3 H4]]]] _ IH]; [repeat split; constructor|].
  destruct IH as [I1 [I2 [I3 I4]]]. cbn [map]. repeat split; constructor; assumption.
Qed.

Section Columns.

Variable cols : list (string * string).
Hypothesis Hclean : Forall cleanColumn cols.
Hypothesis Hdata : blank (csvLine (map snd cols)) = false.
Hypothesis Hsome : cols <> [].

Lemma uploadLines_uploadOf :
  uploadLines (uploadOf cols)
  = [csvLine (map fst cols); JS.trimEnd (csvLine (map snd cols))].
Proof.
  destruct (clean_columns cols Hclean) as [_ [L2 [_ L4]]].
  destruct cols as [|[l c] rest] eqn:E; [contradiction|].
  inversion_clear Hclean as [|? ? [_ [_ [Hstart _]]] _]. cbn [fst] in Hstart.
  destruct (csvLine_starts l (map fst rest)) as [t Ht].
  destruct (trimStart_clean l Hstart t) as [T B].
  unfold uploadOf. rewrite uploadLines_upload.
  - cbn [map fst]. rewrite Ht, T.
    now rewrite split_without by (apply without_trimEnd, without_LF_csvLine, L4).
  - now apply without_LF_csvLine.
  - cbn [map fst]. now rewrite Ht.
  - exact Hdata.
Qed.

Lemma uploadHeader_uploadOf :
  uploadHeader (uploadOf cols) = map (fun col => JS.toLowerCase (fst col)) cols.
Proof.
  destruct (clean_columns cols Hclean) as [L1 _].
  unfold uploadHeader. rewrite uploadLines_uploadOf. cbn [nth].
  rewrite lower_csvLine, split_csvLine, map_map; [reflexivity| |].
  - destruct cols; [contradiction|discriminate].
  - rewrite !Forall_map. rewrite Forall_map in L1.
    eapply Forall_impl; [|exact L1]. cbv beta. intros col H. now rewrite without_comma_lower.
Qed.

Lemma item_indexOf_from (l : string) (cs : list (string * string)) :
  forall pre : list string,
    JS.item (pre ++ map snd cs)
            (JS.indexOf_from l (map (fun col => JS.toLowerCase (fst col)) cs)
                             (Z.of_nat (List.length pre)))
    = cellUnder l cs.
Proof.
  induction cs as [|col cs IH]; intros pre.
  - reflexivity.
  - cbn [map JS.indexOf_from]. unfold cellUnder. cbn [find].
    destruct (String.eqb (JS.toLowerCase (fst col)) l).
    + unfold JS.item. destruct (Z.ltb_spec (Z.of_nat (List.length pre)) 0); [lia|].
      rewrite Nat2Z.id, nth_error_app2, Nat.sub_diag by lia. reflexivity.
    + specialize (IH (pre ++ [snd col])%list).
      rewrite <- app_assoc, length_app in IH. cbn [List.length app] in IH.
      rewrite Nat2Z.inj_add in IH. exact IH.
Qed.

Lemma Number_cell_uploadOf (f : Field) :
  JS.Number (cell (uploadOf cols) f) = JS.Number (cellUnder (label f) cols).
Proof.
  destruct (clean_columns cols Hclean) as [_ [_ [L3 _]]].
  unfold cell, uploadData. rewrite uploadHeader_uploadOf, uploadLines_uploadOf. cbn [nth].
  rewrite (Number_item_Forall2 _ _ (split_trimEnd (csvLine (map snd cols)))).
  rewrite split_csvLine; [|destruct cols; [contradiction|discriminate]|exact L3].
  unfold JS.indexOf. now rewrite <- (item_indexOf_from (label f) cols []).
Qed.

End Columns.

Lemma existsb_Permutation (p : string -> bool) (l l' : list string) :
  Permutation l l' -> existsb p l = existsb p l'.
Proof.
  induction 1 as [|x l l' _ IH|x y l|l l' l'' _ IH1 _ IH2]; cbn [existsb].
  - reflexivity.
  - now rewrite IH.
  - now rewrite !orb_assoc, (orb_comm (p y)).
  - now rewrite IH1.
Qed.

(** With labels that differ, the cell under a label does not depend on the
    order of the columns. *)
Lemma cellUnder_Permutation (l : string) (cs cs' : list (string * string)) :
  Permutation cs cs' ->
  NoDup (map (fun col => JS.toLowerCase (fst col)) cs) ->
  cellUnder l cs = cellUnder l cs'.
Proof.
  unfold cellUnder.
  induction 1 as [|x cs cs' _ IH|x y cs|cs cs' cs'' P1 IH1 P2 IH2]; intros Hnd.
  - reflexivity.
  - cbn [find]. destruct (String.eqb _ l); [reflexivity|].
    apply IH. now inversion Hnd.
  - cbn [find].
    destruct (String.eqb (JS.toLowerCase (fst y)) l) eqn:Ey,
             (String.eqb (JS.toLowerCase (fst x)) l) eqn:Ex; try reflexivity.
    apply String.eqb_eq in Ex, Ey. cbn [map] in Hnd. inversion_clear Hnd as [|? ? Hn _].
    exfalso. apply Hn. left. congruence.
  - rewrite IH1 by exact Hnd. apply IH2.
    eapply Permutation_NoDup; [|exact Hnd]. now apply Permutation_map.
Qed.

(** The outcome of an upload is decided by the length test, the header check
    and the numbers the cells convert to. *)
Lemma after_upload_by_cells (text text' : string) (st : AppState) :
  (List.length (uploadLines text) <? 2)%nat = (List.length (uploadLines text') <? 2)%nat ->
  validFormat text = validFormat text' ->
  (forall f, JS.Number (cell text f) = JS.Number (cell text' f)) ->
  after (handleCSVUpload (Some text)) st = after (handleCSVUpload (Some text')) st.
Proof.
  intros Hl V Hc. rewrite !after_upload, Hl, V.
  assert (C : converted text = converted text')
    by (unfold converted, convertedField; now rewrite !Hc).
  unfold uploaded. now rewrite C.
Qed.

(** X20.  The columns of an upload may come in any order: with labels that
    differ from one another, hold no comma and do not start with white
    space, two uploads with the same columns leave the same state. *)
Theorem column_order_is_free (cols cols' : list (string * string)) (st : AppState) :
  Permutation cols cols' ->
  Forall cleanColumn cols ->
  NoDup (map (fun col => JS.toLowerCase (fst col)) cols) ->
  after (handleCSVUpload (Some (uploadOf cols))) st
  = after (handleCSVUpload (Some (uploadOf cols'))) st.
Proof.
  intros P Hclean Hnd.
  destruct cols as [|c1 [|c2 cs]].
  - apply Permutation_nil in P. now subst.
  - apply Permutation_length_1_inv in P. now subst.
  - assert (Hclean' : Forall cleanColumn cols')
      by (eapply Permutation_Forall; eassumption).
    assert (Hsome : c1 :: c2 :: cs <> []) by discriminate.
    assert (Hdata : blank (csvLine (map snd (c1 :: c2 :: cs))) = false)
      by apply blank_csvLine.
    assert (Hsome' : cols' <> [])
      by (intros ->; apply Permutation_sym, Permutation_nil in P; discriminate P).
    assert (Hdata' : blank (csvLine (map snd cols')) = false).
    { destruct cols' as [|d1 [|d2 ds]]; [contradiction| |apply blank_csvLine].
      apply Permutation_length in P. discriminate P. }
    apply after_upload_by_cells.
    + now rewrite !uploadLines_uploadOf.
    + unfold validFormat. rewrite !uploadHeader_uploadOf by assumption.
      pose proof (Permutation_map (fun col => JS.toLowerCase (fst col)) P) as PM.
      unfold expectedHeaders. cbn [forallb].
      now rewrite !(fun p => existsb_Permutation p _ _ PM).
    + intros f. rewrite !Number_cell_uploadOf by assumption.
      now rewrite (cellUnder_Permutation _ _ _ P Hnd).
Qed.

Lemma column_order_is_free_witness :
  after (handleCSVUpload (Some (upload
    "comprehension score,reading speed,fixation duration,saccade length,phoneme errors,spelling errors"
    "90,40,350,30,10,7"))) initialState
  = after (handleCSVUpload (Some (upload standardHeader "40,350,30,10,7,90"))) initialState.
Proof.
  apply (column_order_is_free
    [("comprehension score", "90"); ("reading speed", "40"); ("fixation duration", "350");
     ("saccade length", "30"); ("phoneme errors", "10"); ("spelling errors", "7")]
    [("reading speed", "40"); ("fixation duration", "350"); ("saccade length", "30");
     ("phoneme errors", "10"); ("spelling errors", "7"); ("comprehension score", "90")]
    initialState).
  - apply Permutation_cons_append.
  - repeat constructor.
  - cbn [map fst]. repeat constructor; cbn; intuition discriminate.
Defined.

(* ================================================================== *)
(** ** The component as a state machine *)
(* ================================================================== *)






(** X14.  Moving the slider of a field stores the number its value converts
    to in that field and changes nothing else: not the other five fields,
    not the result on display, not the tab, not the upload error. *)
Theorem slider_sets_one_field (f : Field) (v : string) (st : AppState) :
  let st' := after (handleInputChange (key f) v) st in
  value f (formData st') = JS.Number (Some v)
  /\ (forall g, g <> f -> value g (formData st') = value g (formData st))
  /\ result st' = result st /\ activeTab st' = activeTab st
  /\ inputMethod st' = inputMethod st /\ csvError st' = csvError st.
Proof.
  cbv zeta. split; [destruct f; reflexivity|].
  split; [|repeat split].
  intros g Hg. destruct f, g; try reflexivity; now contradiction Hg.
Qed.




(** X17.  The result on display is not refreshed by the sliders: after a
    slider has moved, a click on the Results tab shows the result that was
    there before, whatever the record has become. *)
Theorem moved_slider_leaves_old_result (name v : string) (st : AppState) (r : Result) :
  result st = Some r ->
  let st' := run [MoveSlider name v; ClickResultsTab] st in
  activeTab st' = "results" /\ result st' = Some r.
Proof.
  intros H. cbv zeta. cbn [run handle].
  set (st1 := after (handleInputChange name v) st).
  assert (R1 : result st1 = Some r) by exact H.
  clearbody st1. unfold after. cbv beta. rewrite R1.
  cbn [snd setActiveTab activeTab result]. split; [reflexivity|exact R1].
Qed.

Lemma moved_slider_leaves_old_result_witness :
  let st' := run [MoveSlider "readingSpeed" "0"; ClickResultsTab] (after handleSubmit initialState) in
  activeTab st' = "results" /\ result st' = Some (analyzeData initialFormData).
Proof.
  apply (moved_slider_leaves_old_result "readingSpeed" "0" (after handleSubmit initialState)).
  reflexivity.
Defined.

(** X18.  Submitting twice is submitting once, submitting never changes the
    record, and submitting right after an accepted upload changes nothing
    at all. *)
Theorem submit_is_idempotent (st : AppState) :
  after handleSubmit (after handleSubmit st) = after handleSubmit st
  /\ formData (after handleSubmit st) = formData st
  /\ forall text,
       csvError (after (handleCSVUpload (Some text)) st) = None ->
       after handleSubmit (after (handleCSVUpload (Some text)) st)
       = after (handleCSVUpload (Some text)) st.
Proof.
  split; [reflexivity|]. split; [reflexivity|].
  intros text H. rewrite !after_upload in *.
  destruct (_ <? _)%nat; [discriminate H|]. destruct (negb _); [discriminate H|].
  reflexivity.
Qed.

(* ================================================================== *)
(** ** What the results panel shows *)
(* ================================================================== *)

(** X6.  The radar chart has one value per label, and the value of a field
    is its score plus 1: 1 for Low, 2 for Medium, 3 for High. *)
Theorem radar_value_is_score_plus_one (d : FormDataType) (f : Field) :
  List.length (radarData (Some (analyzeData d))) = List.length chartLabels
  /\ at_index (radarData (Some (analyzeData d))) (position f)
     = JS.add (fieldScore f d) (JS.of_Z 1).
Proof.
  split; [reflexivity|].
  destruct f; unfold fieldScore, analyzeData, score;
    cbn [radarData map detailsValues details readingSpeedRisk fixationRisk saccadeRisk
         phonemeRisk spellingRisk comprehensionRisk position value features at_index nth];
    repeat match goal with
           | |- context [JS.lt ?a ?b] => destruct (JS.lt a b)
           | |- context [JS.gt ?a ?b] => destruct (JS.gt a b)
           end; vm_compute; reflexivity.
Qed.

(** X7.  The two segments of the doughnut chart are the risk score and what
    is left to 10: neither is negative, and they add up to exactly 10. *)
Theorem doughnut_segments_fill_ten (d : FormDataType) :
  exists safe,
    doughnutData (Some (analyzeData d)) = [riskScore (analyzeData d); safe]
    /\ JS.le (JS.of_Z 0) (riskScore (analyzeData d)) = true
    /\ JS.le (JS.of_Z 0) safe = true
    /\ JS.add (riskScore (analyzeData d)) safe = JS.of_Z 10.
Proof.
  exists (JS.sub (JS.of_Z 10) (riskScore (analyzeData d))).
  split; [reflexivity|].
  pose proof (scores_enum (fun _ r =>
      JS.le (JS.of_Z 0) r && JS.le (JS.of_Z 0) (JS.sub (JS.of_Z 10) r)
      && same (JS.add r (JS.sub (JS.of_Z 10) r)) (JS.of_Z 10)) d
    ltac:(vm_compute; reflexivity)) as H.
  cbv beta in H. apply andb_prop in H as [H Hs]. apply andb_prop in H as [H0 H1].
  apply same_spec in Hs. auto.
Qed.

Lemma heading_by_riskScore (d : FormDataType) :
  heading (analyzeData d)
  = if JS.ge (riskScore (analyzeData d)) (JS.of_Z 5)
    then "Dyslexia Risk Detected" else "Low Dyslexia Risk".
Proof.
  unfold heading. rewrite prediction_by_riskScore.
  destruct (JS.ge (riskScore (analyzeData d)) (JS.of_Z 5)); reflexivity.
Qed.

Lemma showsRecommendations_by_riskScore (d : FormDataType) :
  showsRecommendations (analyzeData d) = JS.ge (riskScore (analyzeData d)) (JS.of_Z 5).
Proof.
  unfold showsRecommendations. rewrite prediction_by_riskScore.
  destruct (JS.ge (riskScore (analyzeData d)) (JS.of_Z 5)); reflexivity.
Qed.

(** X19.  The panel shows the risk score with one decimal, between 0.0 and
    10.0.  When the text shows more than 5.0 the heading announces a risk
    and the recommendations are shown; when it shows less, the heading says
    low risk and they are not.  At 5.0 the text does not tell: the default
    record and a record whose rounded sum falls just short both read
    5.0/10, the first with the risk heading and the second without. *)
Theorem shown_score_and_heading :
  (forall d : FormDataType,
     exists n : Z,
       0 <= n <= 100
       /\ riskScoreText (analyzeData d) = Some (pointed n 1 ++ "/10")
       /\ (50 < n -> heading (analyzeData d) = "Dyslexia Risk Detected"
                     /\ showsRecommendations (analyzeData d) = true)
       /\ (n < 50 -> heading (analyzeData d) = "Low Dyslexia Risk"
                     /\ showsRecommendations (analyzeData d) = false))
  /\ riskScoreText (analyzeData initialFormData) = Some "5.0/10"
  /\ heading (analyzeData initialFormData) = "Dyslexia Risk Detected"
  /\ riskScoreText (analyzeData shortSaccadeRecord) = Some "5.0/10"
  /\ heading (analyzeData shortSaccadeRecord) = "Low Dyslexia Risk".
Proof.
  split; [|repeat split; vm_compute; reflexivity].
  intros d.
  pose proof (scores_enum (fun _ r => textAgreesWithThreshold r) d
                ltac:(vm_compute; reflexivity)) as H.
  cbv beta in H. unfold textAgreesWithThreshold in H.
  rewrite heading_by_riskScore, showsRecommendations_by_riskScore.
  unfold riskScoreText.
  destruct (toFixed (riskScore (analyzeData d)) 1) as [s|]; [|discriminate H].
  apply andb_prop in H as [H Hlow]. apply andb_prop in H as [H Hhigh].
  apply andb_prop in H as [H H100]. apply andb_prop in H as [Hs H0].
  apply String.eqb_eq in Hs. apply Z.leb_le in H0, H100.
  exists (shownTenths (riskScore (analyzeData d))).
  split; [lia|]. split; [cbn [option_map]; now rewrite Hs|]. split.
  - intros Hn. apply Z.ltb_lt in Hn. rewrite Hn in Hhigh. cbn [implb] in Hhigh.
    now rewrite Hhigh.
  - intros Hn. apply Z.ltb_lt in Hn. rewrite Hn in Hlow. cbn [implb] in Hlow.
    apply negb_true_iff in Hlow. now rewrite Hlow.
Qed.

(** X21.  Every level of every field can be set by hand: for each field and
    each of the scores 0, 1 and 2 there is a whole position of the field's
    slider, between its minimum 0 and its maximum, that gives the field
    that score once the slider has been moved there. *)
Theorem every_level_is_within_slider_range (f : Field) (s : Z) (st : AppState) :
  In s [0; 1; 2] ->
  exists n : Z,
    0 <= n <= sliderMax (key f)
    /\ fieldScore f (formData (after (handleInputChange (key f) (digits n)) st)) = JS.of_Z s.
Proof.
  intros Hs. cbn [In] in Hs.
  destruct Hs as [<-|[<-|[<-|[]]]]; destruct f.
  all: first
    [ exists 0; split; [vm_compute; intuition discriminate|vm_compute; reflexivity]
    | exists 60; split; [vm_compute; intuition discriminate|vm_compute; reflexivity]
    | exists 100; split; [vm_compute; intuition discriminate|vm_compute; reflexivity]
    | exists 9; split; [vm_compute; intuition discriminate|vm_compute; reflexivity]
    | exists 25; split; [vm_compute; intuition discriminate|vm_compute; reflexivity]
    | exists 350; split; [vm_compute; intuition discriminate|vm_compute; reflexivity]
    | exists 500; split; [vm_compute; intuition discriminate|vm_compute; reflexivity] ].
Qed.

Lemma every_level_is_within_slider_range_witness :
  exists n : Z,
    0 <= n <= sliderMax (key ComprehensionScore)
    /\ fieldScore ComprehensionScore
         (formData (after (handleInputChange (key ComprehensionScore) (digits n)) initialState))
       = JS.of_Z 0.
Proof.
  apply (every_level_is_within_slider_range ComprehensionScore 0 initialState). now left.
Defined.
